(** * micro-printviz: the log plotter ([plot_logs.py]) and the signal-source
    demo ([pico_demo.py]), embedded and checked against their specification.

    Python values are modelled as follows.
    - [str] is [string]; selectors and column names are ASCII.
    - [int] is [Z].
    - [float] is [Float]: an exact rational in lowest terms, or one of the
      IEEE special values inf, -inf, nan.  Rounding is not modelled.
    - [None] is [option]'s [None].
    - A computation that may print and may raise is a [Py A]: the lines
      printed so far, and either the exception raised or the value returned.
    - A [dict] is a [gmap].
    The CSV parser and the plotting library are external; the calls the
    program makes into them are modelled in the modules [Pandas] and
    [Matplotlib] from their documented behaviour. *)

From Stdlib Require Import Ascii String ZArith QArith Qround Qpower Lqa Lia.
From Stdlib Require Import Qabs DecimalString.
From stdpp Require Import base option list strings gmap.

Local Open Scope string_scope.
Local Open Scope list_scope.
Local Open Scope Z_scope.

(** ** Exceptions and effects *)

(** The exception classes the two scripts can meet. *)
Inductive Exn : Type :=
  | AttributeError
  | KeyError
  | IndexError
  | ValueError
  | AssertionError
  | FileNotFoundError
  | EmptyDataError
  | ParserError.

#[global] Instance Exn_eq_dec : EqDecision Exn.
Proof. solve_decision. Defined.

(** Outcome of a call: an exception, or a value. *)
Inductive Outcome (A : Type) : Type :=
  | Raise (e : Exn)
  | Return (a : A).
Arguments Raise {A} e.
Arguments Return {A} a.

(** [Py A]: the lines written to stdout, in order, and the outcome. *)
Definition Py (A : Type) : Type := list string * Outcome A.

Definition ret {A} (a : A) : Py A := ([], Return a).
Definition raise {A} (e : Exn) : Py A := ([], Raise e).
Definition print (line : string) : Py unit := ([line], Return tt).

Definition bind {A B} (m : Py A) (k : A -> Py B) : Py B :=
  match m with
  | (out, Raise e) => (out, Raise e)
  | (out, Return a) => let '(out', r) := k a in (out ++ out', r)
  end.

(** [try: m except e: h] *)
Definition try_except {A} (m : Py A) (e : Exn) (h : Py A) : Py A :=
  match m with
  | (out, Raise e') =>
      if decide (e' = e) then let '(out', r) := h in (out ++ out', r)
      else (out, Raise e')
  | (out, Return a) => (out, Return a)
  end.

#[global] Instance Py_ret : MRet Py := @ret.
#[global] Instance Py_bind : MBind Py := fun A B k m => bind m k.

(** [when b m]: [if b: m]. *)
Definition when (b : bool) (m : Py unit) : Py unit := if b then m else ret tt.

(** A list comprehension [[f x for x in l]] whose body may raise: elements
    are evaluated left to right and the first exception ends the loop. *)
Fixpoint mapM {A B} (f : A -> Py B) (l : list A) : Py (list B) :=
  match l with
  | [] => ret []
  | x :: l' => y ← f x; ys ← mapM f l'; ret (y :: ys)
  end.

(** ** Python strings *)

Module PyStr.

(** Whitespace as [str.strip] and [int] see it, on ASCII: \t \n \v \f \r,
    the separators 0x1c..0x1f, and the space. *)
Definition isspace (a : ascii) : bool :=
  let n := nat_of_ascii a in
  ((9 <=? n)%nat && (n <=? 13)%nat) || ((28 <=? n)%nat && (n <=? 32)%nat).

Fixpoint lstrip (s : string) : string :=
  match s with
  | String a s' => if isspace a then lstrip s' else s
  | EmptyString => EmptyString
  end.

Definition rstrip (s : string) : string := String.rev (lstrip (String.rev s)).

(** [s.strip()] *)
Definition strip (s : string) : string := rstrip (lstrip s).

Definition digit (a : ascii) : option Z :=
  let n := nat_of_ascii a in
  if ((48 <=? n)%nat && (n <=? 57)%nat) then Some (Z.of_nat n - 48) else None.

(** Digits of a decimal literal: one or more digits, single underscores
    allowed between digits only.  [after_digit] says whether the previous
    character was a digit. *)
Fixpoint digits (acc : Z) (after_digit : bool) (s : string) : option Z :=
  match s with
  | EmptyString => if after_digit then Some acc else None
  | String a s' =>
      match digit a with
      | Some d => digits (10 * acc + d) true s'
      | None =>
          if (Ascii.eqb a "_" && after_digit)%bool then digits acc false s'
          else None
      end
  end.

Definition parse_int (s : string) : option Z :=
  match strip s with
  | String "-" s' => Z.opp <$> digits 0 false s'
  | String "+" s' => digits 0 false s'
  | s' => digits 0 false s'
  end.

(** [int(s)] for a string [s]: surrounding whitespace is ignored, an
    optional sign, then decimal digits; anything else is a [ValueError]. *)
Definition int (s : string) : Py Z :=
  match parse_int s with
  | Some z => ret z
  | None => raise ValueError
  end.

End PyStr.

(** ** Floating-point values, without rounding *)

(** A [float]: a rational kept in lowest terms, or inf, -inf, nan.  There is
    one zero; it behaves as +0.0, which is what a difference [a - a] or
    [max - min] is. *)
Inductive Float : Type :=
  | Fin (q : Q)
  | PInf
  | NInf
  | NaN.

Module Fl.

Local Open Scope Q_scope.

Definition fin (q : Q) : Float := Fin (Qred q).
Definition of_Z (z : Z) : Float := Fin (inject_Z z).

(** [np.isfinite] *)
Definition isfinite (a : Float) : bool :=
  match a with Fin _ => true | _ => false end.

Definition notnan (a : Float) : bool :=
  match a with NaN => false | _ => true end.

Definition add (a b : Float) : Float :=
  match a, b with
  | Fin p, Fin q => fin (p + q)
  | NaN, _ | _, NaN => NaN
  | PInf, NInf | NInf, PInf => NaN
  | PInf, _ | _, PInf => PInf
  | NInf, _ | _, NInf => NInf
  end.

Definition sub (a b : Float) : Float :=
  match a, b with
  | Fin p, Fin q => fin (p - q)
  | NaN, _ | _, NaN => NaN
  | PInf, PInf | NInf, NInf => NaN
  | PInf, _ | _, NInf => PInf
  | NInf, _ | _, PInf => NInf
  end.

(** The infinity [inf * p] for a finite [p]: nan when [p] is zero. *)
Definition scaled_inf (positive : bool) (p : Q) : Float :=
  match p ?= 0 with
  | Gt => if positive then PInf else NInf
  | Lt => if positive then NInf else PInf
  | Eq => NaN
  end.

Definition mul (a b : Float) : Float :=
  match a, b with
  | Fin p, Fin q => fin (p * q)
  | NaN, _ | _, NaN => NaN
  | Fin p, PInf | PInf, Fin p => scaled_inf true p
  | Fin p, NInf | NInf, Fin p => scaled_inf false p
  | PInf, PInf | NInf, NInf => PInf
  | PInf, NInf | NInf, PInf => NInf
  end.

(** Division as numpy scalars do it: dividing by zero gives an infinity or
    nan (with a warning on stderr) and raises nothing. *)
Definition div (a b : Float) : Float :=
  match a, b with
  | NaN, _ | _, NaN => NaN
  | Fin p, Fin q => if Qeq_bool q 0 then scaled_inf true p else fin (p / q)
  | Fin _, (PInf | NInf) => Fin 0
  | PInf, Fin q => if Qle_bool 0 q then PInf else NInf
  | NInf, Fin q => if Qle_bool 0 q then NInf else PInf
  | (PInf | NInf), (PInf | NInf) => NaN
  end.

(** [a < b]; every comparison with nan is false. *)
Definition ltb (a b : Float) : bool :=
  match a, b with
  | NaN, _ | _, NaN => false
  | Fin p, Fin q => match p ?= q with Lt => true | _ => false end
  | NInf, (Fin _ | PInf) => true
  | Fin _, PInf => true
  | _, _ => false
  end.

Definition gtb (a b : Float) : bool := ltb b a.

(** The builtins [min(a, b)] and [max(a, b)] on two arguments: the first
    argument is kept unless the second is strictly smaller (larger). *)
Definition min (a b : Float) : Float := if ltb b a then b else a.
Definition max (a b : Float) : Float := if gtb b a then b else a.

End Fl.

Declare Scope float_scope.
Delimit Scope float_scope with fl.
Bind Scope float_scope with Float.
Infix "+" := Fl.add : float_scope.
Infix "-" := Fl.sub : float_scope.
Infix "*" := Fl.mul : float_scope.
Infix "/" := Fl.div : float_scope.
Infix "<?" := Fl.ltb : float_scope.
Infix ">?" := Fl.gtb : float_scope.

(** ** The table library, as the plotter uses it *)

Module Pandas.

(** A column's values.  dtype is "object" for [ObjSeries] (text that did
    not parse as numbers) and numeric for [NumSeries]. *)
Inductive Series : Type :=
  | NumSeries (vals : list Float)
  | ObjSeries (vals : list string).

Definition series_len (s : Series) : nat :=
  match s with NumSeries v => length v | ObjSeries v => length v end.

Definition series_drop (k : nat) (s : Series) : Series :=
  match s with
  | NumSeries v => NumSeries (drop k v)
  | ObjSeries v => ObjSeries (drop k v)
  end.

(** [s.min()], [s.max()] on a numeric series: nan entries are skipped, and
    the result is nan when nothing is left. *)
Definition reduce (pick : Float -> Float -> Float) (vals : list Float) : Float :=
  match filter (fun v => Is_true (Fl.notnan v)) vals with
  | [] => NaN
  | v :: vs => fold_left pick vs v
  end.
Definition series_min : list Float -> Float := reduce Fl.min.
Definition series_max : list Float -> Float := reduce Fl.max.

(** A table: column labels, row labels, and one series per column. *)
Record DataFrame : Type := mkDataFrame {
  columns : list string;
  index : list Z;
  data : list Series
}.

(** [len(df)] *)
Definition len (df : DataFrame) : nat := length (index df).

(** [name in df.columns] *)
Definition contains (cols : list string) (name : string) : bool :=
  bool_decide (name ∈ cols).

(** [df.columns[i]] for an [int]: negative positions count from the end;
    a position outside the labels is an [IndexError]. *)
Definition index_getitem (cols : list string) (i : Z) : Py string :=
  let n := Z.of_nat (length cols) in
  let j := if i <? 0 then i + n else i in
  if (0 <=? j) && (j <? n) then
    match cols !! Z.to_nat j with
    | Some c => ret c
    | None => raise IndexError
    end
  else raise IndexError.

(** [df.rename(columns=f)] *)
Definition rename (f : string -> string) (df : DataFrame) : DataFrame :=
  mkDataFrame (f <$> columns df) (index df) (data df).

(** [df.tail(n)]: the last [n] rows; none for [n = 0]; for a negative [n],
    all rows but the first [-n]. *)
Definition tail (n : Z) (df : DataFrame) : DataFrame :=
  let rows := len df in
  let k := if 0 <? n then (rows - Z.to_nat n)%nat
           else if n =? 0 then rows
           else Z.to_nat (- n) in
  mkDataFrame (columns df) (drop k (index df)) (series_drop k <$> data df).

(** [df.reset_index(names=name)]: the row labels become the first column,
    called [name], and the rows are numbered afresh; a [ValueError] when a
    column [name] exists already. *)
Definition reset_index (name : string) (df : DataFrame) : Py DataFrame :=
  if contains (columns df) name then raise ValueError
  else ret (mkDataFrame (name :: columns df)
                        (Z.of_nat <$> seq 0 (len df))
                        (NumSeries (Fl.of_Z <$> index df) :: data df)).

(** [df[name]]: a [KeyError] when no column has this label; the series of
    the column; or, when several columns share the label, a table
    ([None] here), which has no [dtype]. *)
Definition getitem (df : DataFrame) (name : string) : Py (option Series) :=
  match filter (fun cs => cs.1 = name) (zip (columns df) (data df)) with
  | [] => raise KeyError
  | [(_, s)] => ret (Some s)
  | _ => ret None
  end.

(** What the parser makes of a file's content. *)
Inductive File : Type :=
  | Blank                 (* no header line to read: empty or blank *)
  | Malformed             (* the tokenizer rejects the content *)
  | Csv (header : list string) (nrows : nat) (body : list Series).

(** The files that exist, by path. *)
Definition FileSystem : Type := gmap string File.

(** [pd.read_csv(path)] *)
Definition read_csv (fs : FileSystem) (path : string) : Py DataFrame :=
  match fs !! path with
  | None => raise FileNotFoundError
  | Some Blank => raise EmptyDataError
  | Some Malformed => raise ParserError
  | Some (Csv header nrows body) =>
      ret (mkDataFrame header (Z.of_nat <$> seq 0 nrows) body)
  end.

(** A well-formed parsed file: one series per header field, each with one
    value per row. *)
Definition well_formed (header : list string) (nrows : nat) (body : list Series) : Prop :=
  length body = length header /\ Forall (fun s => series_len s = nrows) body.

End Pandas.

(** ** The plotting library, as the plotter uses it *)

Module Matplotlib.

(** A drawn line: the data it shows. *)
Record Line2D : Type := mkLine2D {
  xdata : list Float;
  ydata : list Float
}.

(** The axes: the visible limits, (low, high) per axis. *)
Record Axes : Type := mkAxes {
  xlim : Float * Float;
  ylim : Float * Float
}.

Definition get_xlim (ax : Axes) : Float * Float := xlim ax.
Definition get_ylim (ax : Axes) : Float * Float := ylim ax.

(** [ax.set_xlim((lo, hi))], [ax.set_ylim((lo, hi))]: limits that are nan
    or infinite are refused with a [ValueError].  (The library widens
    limits that coincide; the model stores them as given.) *)
Definition set_xlim (ax : Axes) (lim : Float * Float) : Py Axes :=
  if Fl.isfinite lim.1 && Fl.isfinite lim.2 then ret (mkAxes lim (ylim ax))
  else raise ValueError.
Definition set_ylim (ax : Axes) (lim : Float * Float) : Py Axes :=
  if Fl.isfinite lim.1 && Fl.isfinite lim.2 then ret (mkAxes (xlim ax) lim)
  else raise ValueError.

End Matplotlib.

(** ** plot_logs.py *)

Import Pandas Matplotlib.

(** The configuration dictionary built by [load_configs], with the entries
    the functions below read. *)
Record Configs : Type := mkConfigs {
  path_to_logs : string;
  max_samples : Z;
  lim_margin : Float;
  x_cols : option (list string);
  y_cols : option (list string)
}.

(** [read_data(path, n_max)]: only the parser's [EmptyDataError] is caught. *)
Definition read_data (fs : FileSystem) (path : string) (n_max : Z)
  : Py (option DataFrame) :=
  data ← try_except
           (data ← read_csv fs path;
            ret (Some (rename PyStr.strip data)))
           EmptyDataError
           (ret None);
  match data with
  | None => ret None
  | Some data =>
      if (len data =? 0)%nat then ret None
      else ret (Some (tail n_max data))
  end.

(** [data.columns] where [data] may be [None]. *)
Definition columns_of (data : option DataFrame) : Py (list string) :=
  match data with
  | None => raise AttributeError
  | Some df => ret (columns df)
  end.

(** [check_col(data, col, warn)] *)
Definition check_col (data : option DataFrame) (col : string) (warn : bool)
  : Py (option string) :=
  cols ← columns_of data;
  if contains cols col then ret (Some col)
  else
    try_except
      (i ← PyStr.int col;
       name ← index_getitem cols i;
       ret (Some name))
      KeyError
      (when warn (print ("Warning: Cannot find column " +:+ col));;
       ret None).

(** Lines 122-125 and 127-130 of [organize_cols], the same for x and y:
    check every selector, keep those that resolved, and turn an empty
    result into [None]. *)
Definition resolve_selectors (data : option DataFrame)
    (cols : option (list string)) (warn : bool) : Py (option (list string)) :=
  match cols with
  | None => ret None
  | Some cols =>
      cols ← mapM (fun col => check_col data col warn) cols;
      let cols := omap id cols in
      ret (if (0 <? length cols)%nat then Some cols else None)
  end.

(** [zip(cycle(xs), ys)] *)
Fixpoint zip_cycle_from {A B} (xs cur : list A) (ys : list B) : list (A * B) :=
  match ys with
  | [] => []
  | y :: ys' =>
      match cur with
      | c :: cur' => (c, y) :: zip_cycle_from xs cur' ys'
      | [] =>
          match xs with
          | c :: cur' => (c, y) :: zip_cycle_from xs cur' ys'
          | [] => []
          end
      end
  end.
Definition zip_cycle {A B} (xs : list A) (ys : list B) : list (A * B) :=
  zip_cycle_from xs xs ys.

(** [assert(b)] *)
Definition assert (b : bool) : Py unit :=
  if b then ret tt else raise AssertionError.

(** Lines 122-141 of [organize_cols]: the x and y column lists, resolved,
    validated and defaulted. *)
Definition organize_cols_lists (data : option DataFrame)
    (x_cols y_cols : option (list string)) (warn : bool)
  : Py (list string * list string) :=
  x_cols ← resolve_selectors data x_cols warn;
  y_cols ← resolve_selectors data y_cols warn;
  x_cols ← match x_cols, y_cols with
           | Some xs, Some ys =>
               if (negb (length xs =? length ys)%nat && (1 <? length xs)%nat) && warn
               then
                 print "Warning: Number of x-cols must match the number of y-cols.";;
                 print "Warning: Ignoring x-cols.";;
                 ret None
               else ret (Some xs)
           | _, _ => ret x_cols
           end;
  let x_cols := default ["_index"] x_cols in
  y_cols ← match y_cols with
           | Some ys => ret ys
           | None => columns_of data
           end;
  ret (x_cols, y_cols).

(** [organize_cols(data, x_cols, y_cols, warn)] *)
Definition organize_cols (data : option DataFrame)
    (x_cols y_cols : option (list string)) (warn : bool)
  : Py (DataFrame * list (string * string)) :=
  '(x_cols, y_cols) ← organize_cols_lists data x_cols y_cols warn;
  assert (length x_cols <=? length y_cols)%nat;;
  let col_pairs := zip_cycle x_cols y_cols in
  data ← match data with
         | None => raise AttributeError
         | Some df => reset_index "_index" df
         end;
  ret (data, col_pairs).

(** [get_label(x_col, y_col)] *)
Definition get_label (x_col y_col : string) : string :=
  if bool_decide (x_col = "_index") then y_col
  else x_col +:+ " vs. " +:+ y_col.

(** The figure being updated: the axes and the [handles] dictionary, from a
    label to the line drawn for it. *)
Record Plot : Type := mkPlot {
  ax : Axes;
  handles : gmap string Line2D
}.

(** The bounding box of the plotted series. *)
Record BBox : Type := mkBBox {
  x_min : Float;
  x_max : Float;
  y_min : Float;
  y_max : Float
}.

(** A left fold whose step may raise: a [for] loop with its loop state. *)
Fixpoint foldM {A S} (f : S -> A -> Py S) (s : S) (l : list A) : Py S :=
  match l with
  | [] => ret s
  | x :: l' => s' ← f s x; foldM f s' l'
  end.

(** [handles[label][0].set_...(v)]: a [KeyError] when the label has no line. *)
Definition set_line (handles : gmap string Line2D) (label : string)
    (upd : Line2D -> Line2D) : Py (gmap string Line2D) :=
  match handles !! label with
  | None => raise KeyError
  | Some line => ret (<[label := upd line]> handles)
  end.

(** [v[-1:]] *)
Definition last_slice {A} (v : list A) : list A := drop (length v - 1)%nat v.

(** The body of the [for] loop of [plot_update] (lines 198-212) for one
    column pair.  A table has no [dtype]: reading it is an [AttributeError]. *)
Definition plot_update_pair (df : DataFrame)
    (st : gmap string Line2D * BBox) (pair : string * string)
  : Py (gmap string Line2D * BBox) :=
  let '(handles, bb) := st in
  let '(x_col, y_col) := pair in
  let label := get_label x_col y_col in
  x ← getitem df x_col;
  y ← getitem df y_col;
  match x, y with
  | None, _ => raise AttributeError
  | Some (ObjSeries _), _ => ret st
  | Some (NumSeries _), None => raise AttributeError
  | Some (NumSeries _), Some (ObjSeries _) => ret st
  | Some (NumSeries x), Some (NumSeries y) =>
      handles ← set_line handles label (fun l => mkLine2D (xdata l) y);
      handles ← set_line handles label (fun l => mkLine2D x (ydata l));
      handles ← set_line handles (label +:+ "_point")
                  (fun l => mkLine2D (xdata l) (last_slice y));
      handles ← set_line handles (label +:+ "_point")
                  (fun l => mkLine2D (last_slice x) (ydata l));
      ret (handles,
           mkBBox (Fl.min (x_min bb) (series_min x))
                  (Fl.max (x_max bb) (series_max x))
                  (Fl.min (y_min bb) (series_min y))
                  (Fl.max (y_max bb) (series_max y)))
  end.

(** The constants 0.2, 0.9 and 0 of the rescaling test. *)
Definition c0_2 : Float := Fin (1 # 5).
Definition c0_9 : Float := Fin (9 # 10).
Definition c0 : Float := Fin 0.

(** Lines 213-237 of [plot_update]: the axis limits, given the bounding box. *)
Definition plot_update_limits (lim_margin : Float) (bb : BBox) (ax : Axes)
  : Py Axes :=
  let '(x_min_cur, x_max_cur) := get_xlim ax in
  let '(y_min_cur, y_max_cur) := get_ylim ax in
  let dx := (x_max bb - x_min bb)%fl in
  let dy := (y_max bb - y_min bb)%fl in
  ax ← (if Fl.isfinite (y_min bb) && Fl.isfinite (y_max bb) then
          let y_min_target := (y_min bb - dy * lim_margin)%fl in
          let y_max_target := (y_max bb + dy * lim_margin)%fl in
          let low_rel := ((y_min_target - y_min_cur) / dx)%fl in
          let high_rel := ((y_max_cur - y_max_target) / dx)%fl in
          if ((low_rel >? c0_2) || (low_rel <? c0))%fl
             || ((high_rel >? c0_2) || (high_rel <? c0))%fl
          then set_ylim ax ((y_min_cur + (y_min_target - y_min_cur) * c0_9)%fl,
                            (y_max_cur + (y_max_target - y_max_cur) * c0_9)%fl)
          else ret ax
        else ret ax);
  if Fl.isfinite (x_min bb) && Fl.isfinite (x_max bb) then
    let x_min_target := (x_min bb - dx * lim_margin)%fl in
    let x_max_target := (x_max bb + dx * lim_margin)%fl in
    let low_rel := ((x_min_target - x_min_cur) / dx)%fl in
    let high_rel := ((x_max_cur - x_max_target) / dx)%fl in
    if ((low_rel >? c0_2) || (low_rel <? c0))%fl
       || ((high_rel >? c0_2) || (high_rel <? c0))%fl
    then set_xlim ax ((x_min_cur + (x_min_target - x_min_cur) * c0_9)%fl,
                      (x_max_cur + (x_max_target - x_max_cur) * c0_9)%fl)
    else ret ax
  else ret ax.

(** [plot_update(ax, handles, data, col_pairs, configs)] *)
Definition plot_update (p : Plot) (data : option DataFrame)
    (col_pairs : list (string * string)) (configs : Configs) : Py Plot :=
  match data with
  | None => ret p
  | Some df =>
      '(handles, bb) ← foldM (plot_update_pair df)
                         (handles p, mkBBox PInf NInf PInf NInf) col_pairs;
      ax ← plot_update_limits (lim_margin configs) bb (ax p);
      ret (mkPlot ax handles)
  end.

(** One pass through the body of the [while True] loop of [run], up to the
    pause (lines 270-277). *)
Definition run_iteration (fs : FileSystem) (configs : Configs) (p : Plot)
  : Py Plot :=
  data ← read_data fs (path_to_logs configs) (max_samples configs);
  '(data, col_pairs) ← organize_cols data (x_cols configs) (y_cols configs) false;
  plot_update p (Some data) col_pairs configs.

(** The [while True] loop of [run] against what it observes: per pass, the
    files as they are when the log is read, and whether the window is still
    open after the pause.  The loop leaves when the window is closed; a list
    that ends earlier is an observation that stops there. *)
Fixpoint run_streaming (configs : Configs) (obs : list (FileSystem * bool))
    (p : Plot) : Py Plot :=
  match obs with
  | [] => ret p
  | (fs, open) :: obs' =>
      p' ← run_iteration fs configs p;
      if open then run_streaming configs obs' p' else ret p'
  end.

(** ** pico_demo.py *)

Module PicoDemo.

(** [%]-formatting of a float with the conversion [f]. *)

(** The decimal digits of a natural number. *)
Definition decimal (n : Z) : string :=
  NilZero.string_of_uint (N.to_uint (Z.to_N n)).

(** [c] repeated [n] times. *)
Fixpoint repeat_char (c : ascii) (n : nat) : string :=
  match n with
  | O => EmptyString
  | S n' => String c (repeat_char c n')
  end.

(** Pad on the left to [width] characters with [c]. *)
Definition pad_left (c : ascii) (width : nat) (s : string) : string :=
  repeat_char c (width - String.length s) +:+ s.

(** The nearest integer, ties to even. *)
Definition round_half_even (q : Q) : Z :=
  let f := Qfloor q in
  match (q - inject_Z f ?= 1 # 2)%Q with
  | Lt => f
  | Gt => f + 1
  | Eq => if Z.even f then f else f + 1
  end.

(** A finite value in fixed notation with [prec] digits after the point:
    the sign is that of the value before rounding. *)
Definition fixed (prec : nat) (q : Q) : string :=
  let scale := 10 ^ Z.of_nat prec in
  let n := round_half_even (Qabs q * inject_Z scale)%Q in
  let sign := match (q ?= 0)%Q with Lt => "-" | _ => "" end in
  let frac := match prec with
              | O => ""
              | _ => "." +:+ pad_left "0" prec (decimal (n mod scale))
              end in
  sign +:+ decimal (n / scale) +:+ frac.

(** ["%<width>.<prec>f" % v]; a missing width is 0. *)
Definition format_f (width prec : nat) (v : Float) : string :=
  pad_left " " width
    match v with
    | Fin q => fixed prec q
    | PInf => "inf"
    | NInf => "-inf"
    | NaN => "nan"
    end.

(** The precision of [%f] when the format gives none. *)
Definition default_precision : nat := 6.

(** Line 22: the header, printed once before the loop. *)
Definition header : string := "x(t), y(t), x_s(t), y_s(t)".

Definition alpha : Float := Fin (1 # 10).

(** The smoothed values [x_s], [y_s]; [None] before the first sample. *)
Record State : Type := mkState {
  x_s : option Float;
  y_s : option Float
}.

Definition initial : State := mkState None None.

(** Lines 35-36: [v if v_s is None else alpha * v + (1 - alpha) * v_s]. *)
Definition smooth (v : Float) (v_s : option Float) : Float :=
  match v_s with
  | None => v
  | Some s => (alpha * v + (Fin 1 - alpha) * s)%fl
  end.

(** Line 37: ["%3f,%.3f,%.3f,%.3f" % (x, y, x_s, y_s)]. *)
Definition format_line (x y x_s y_s : Float) : string :=
  format_f 3 default_precision x +:+ "," +:+ format_f 0 3 y +:+ ","
    +:+ format_f 0 3 x_s +:+ "," +:+ format_f 0 3 y_s.

(** The body of the [while True] loop (lines 32-39) for the sample
    [(x, y)] that [f_duerer] returned: the line printed and the new state. *)
Definition tick (sample : Float * Float) (st : State) : Py State :=
  let '(x, y) := sample in
  let x_s := smooth x (x_s st) in
  let y_s := smooth y (y_s st) in
  print (format_line x y x_s y_s);;
  ret (mkState (Some x_s) (Some y_s)).

(** The script on the samples [f_duerer] returns, in order: the header,
    then one line per sample. *)
Definition main (samples : list (Float * Float)) : Py State :=
  print header;;
  foldM (fun st sample => tick sample st) initial samples.

(** The line the specification describes: every field with ["%.3f"]. *)
Definition spec_line (x y x_s y_s : Float) : string :=
  format_f 0 3 x +:+ "," +:+ format_f 0 3 y +:+ ","
    +:+ format_f 0 3 x_s +:+ "," +:+ format_f 0 3 y_s.

End PicoDemo.

(** ** plot_logs.py: the blocking read and the first drawing *)

(** What [read_data_until] has come to when the observations end. *)
Inductive Polled : Type :=
  | StillPolling
  | Finished (data : option DataFrame).

(** [read_data_until(path, timeout, n_max)] against what it observes: per
    pass of its loop, the files as they are at the read, and the clock
    reading [current - start] taken after the one-second sleep. *)
Fixpoint read_data_until (polls : list (FileSystem * Q)) (path : string)
    (timeout : Q) (n_max : Z) : Py Polled :=
  match polls with
  | [] => ret StillPolling
  | (fs, elapsed) :: polls' =>
      data ← read_data fs path n_max;
      match data with
      | Some df => ret (Finished (Some df))
      | None =>
          match (elapsed ?= timeout)%Q with
          | Gt => ret (Finished None)
          | _ => read_data_until polls' path timeout n_max
          end
      end
  end.

(** What one call of [ax.plot] drew: the arrays handed to it ([None] for
    the values of a table, when a label repeats) and its keyword arguments. *)
Record Artist : Type := mkArtist {
  art_xdata : option Series;
  art_ydata : option Series;
  art_color : string;
  art_linestyle : option string;
  art_marker : option string;
  art_label : option string
}.

(** [configs["styles"]] and [configs["palette"]]: [load_configs] sets them
    to these lists whatever the arguments are. *)
Definition styles : list string := ["solid"; "dashed"; "dotted"; "dashdot"].
Definition palette : list string :=
  ["#2d8ff3"; "#fc585e"; "#1aaf54"; "#e05fba"; "#e37529"; "#f65394"].

(** [itertools.product(xs, ys)]: the last component varies fastest. *)
Definition product {A B} (xs : list A) (ys : list B) : list (A * B) :=
  x ← xs; (fun y => (x, y)) <$> ys.

(** [sel.values[-1]]: the last row, an [IndexError] when there is none. *)
Definition values_last (df : DataFrame) (sel : option Series) : Py (option Series) :=
  match sel with
  | Some s =>
      if (series_len s =? 0)%nat then raise IndexError
      else ret (Some (series_drop (series_len s - 1) s))
  | None => if (len df =? 0)%nat then raise IndexError else ret None
  end.

(** The body of the [for] loop of [plot_data] (lines 160-175) for one
    column pair and the style [next(colors_styles)] gave it. *)
Definition plot_data_pair (df : DataFrame) (handles : gmap string Artist)
    (item : (string * string) * (string * string)) : Py (gmap string Artist) :=
  let '((ls, c), (x_col, y_col)) := item in
  let label := get_label x_col y_col in
  x ← getitem df x_col;
  y ← getitem df y_col;
  let handle := mkArtist x y c (Some ls) None (Some label) in
  x_last ← getitem df x_col;
  x_last ← values_last df x_last;
  y_last ← getitem df y_col;
  y_last ← values_last df y_last;
  let handle_p := mkArtist x_last y_last c None (Some "o") None in
  ret (<[label +:+ "_point" := handle_p]> (<[label := handle]> handles)).

(** [list(dict.fromkeys(l))]: the first occurrence of each entry, in order. *)
Fixpoint fromkeys_from (seen l : list string) : list string :=
  match l with
  | [] => []
  | x :: l' =>
      if bool_decide (x ∈ seen) then fromkeys_from seen l'
      else x :: fromkeys_from (x :: seen) l'
  end.
Definition fromkeys (l : list string) : list string := fromkeys_from [] l.

Definition newline : string := String (ascii_of_nat 10) EmptyString.

(** [sep.join(l)] *)
Fixpoint join (sep : string) (l : list string) : string :=
  match l with
  | [] => ""
  | [x] => x
  | x :: l' => x +:+ sep +:+ join sep l'
  end.

(** The texts [plot_data] puts on the axes. *)
Record Texts : Type := mkTexts {
  title : string;
  xlabel : string;
  ylabel : string
}.

(** [plot_data(ax, data, col_pairs, configs)]: the [handles] it returns and
    the texts it sets.  The loop over the pairs draws with the styles of
    [cycle(product(styles, palette))] in turn; the unpacking
    [x_cols, y_cols = list(zip( *col_pairs))] after the loop needs a pair. *)
Definition plot_data (df : DataFrame) (col_pairs : list (string * string))
  : Py (gmap string Artist * Texts) :=
  handles ← foldM (plot_data_pair df) ∅
              (zip_cycle (product styles palette) col_pairs);
  x_cols ← match col_pairs with
           | [] => raise ValueError
           | _ => ret (col_pairs.*1)
           end;
  let x_cols := (fun col => if bool_decide (col = "_index") then "Sample" else col)
                  <$> x_cols in
  let x_cols := fromkeys x_cols in
  ret (handles, mkTexts "Log Visualizer" (join newline x_cols) "Value").

(** ** Auxiliary definitions for the rescaling proofs *)

(** The rescaling of one axis, as both blocks of [plot_update_limits] do
    it: [dx] divides the discrepancies, [dv] is the span the margin is
    taken from; [None] when the limits are left alone. *)
Definition nudge (dx dv vmin vmax lim_margin : Float) (cur : Float * Float)
  : option (Float * Float) :=
  let '(min_cur, max_cur) := cur in
  let min_target := (vmin - dv * lim_margin)%fl in
  let max_target := (vmax + dv * lim_margin)%fl in
  let low_rel := ((min_target - min_cur) / dx)%fl in
  let high_rel := ((max_cur - max_target) / dx)%fl in
  if ((low_rel >? c0_2) || (low_rel <? c0))%fl
     || ((high_rel >? c0_2) || (high_rel <? c0))%fl
  then Some ((min_cur + (min_target - min_cur) * c0_9)%fl,
             (max_cur + (max_target - max_cur) * c0_9)%fl)
  else None.

(** [n] update cycles on the same bounding box. *)
Fixpoint rescale_cycles (n : nat) (lim_margin : Float) (bb : BBox) (ax : Axes)
  : Py Axes :=
  match n with
  | O => ret ax
  | S n' =>
      ax' ← rescale_cycles n' lim_margin bb ax;
      plot_update_limits lim_margin bb ax'
  end.




(** ** Sample tables, files and figures *)

(** A table whose second column is literally named "0". *)
Definition table_a_0 : DataFrame :=
  mkDataFrame ["a"; "0"] [0; 1]
    [NumSeries [Fin 1; Fin 2]; NumSeries [Fin 3; Fin 4]].

(** A table with the columns a, b, c and two rows. *)
Definition table_abc : DataFrame :=
  mkDataFrame ["a"; "b"; "c"] [0; 1]
    [NumSeries [Fin 1; Fin 2]; NumSeries [Fin 3; Fin 4]; NumSeries [Fin 5; Fin 6]].

(** [table_abc] after [reset_index(names="_index")]. *)
Definition table_abc_indexed : DataFrame :=
  mkDataFrame ["_index"; "a"; "b"; "c"] [0; 1]
    [NumSeries [Fin 0; Fin 1]; NumSeries [Fin 1; Fin 2];
     NumSeries [Fin 3; Fin 4]; NumSeries [Fin 5; Fin 6]].


(** The log exists and is empty. *)
Definition fs_blank : FileSystem := {[ "logging/log.txt" := Blank ]}.

(** A log with the header [" a,b "] and no rows. *)
Definition fs_header_only : FileSystem :=
  {[ "logging/log.txt" := Csv [" a"; "b "] 0 [NumSeries []; NumSeries []] ]}.

(** A log with the header [" a,b "] and the rows 1,2 / 2,3 / 3,4. *)
Definition fs_three_rows : FileSystem :=
  {[ "logging/log.txt" :=
       Csv [" a"; "b "] 3
         [NumSeries [Fin 1; Fin 2; Fin 3]; NumSeries [Fin 2; Fin 3; Fin 4]] ]}.

(** The defaults of [load_configs], without x- or y-selectors. *)
Definition default_configs : Configs :=
  mkConfigs "logging/log.txt" 100 (Fin (1 # 20)) None None.

Definition empty_plot : Plot :=
  mkPlot (mkAxes (Fin 0, Fin 1) (Fin 0, Fin 1)) ∅.

(** The limits (0, 1) on both axes, for data that fill [0, 1] x [0, 1]:
    the limits lie inside the targets (-0.05, 1.05). *)
Definition unit_box : BBox := mkBBox (Fin 0) (Fin 1) (Fin 0) (Fin 1).
Definition tight_axes : Axes := mkAxes (Fin 0, Fin 1) (Fin 0, Fin 1).

(** The limits [lim'] are finite and lie nine tenths of the way from
    [(lo, hi)] to the targets for the data range [vmin .. vmax] widened by
    the margin [m]. *)
Definition moved_toward (vmin vmax m lo hi : Q) (lim' : Float * Float) : Prop :=
  exists lo' hi',
    lim' = (Fin lo', Fin hi')
    /\ (lo' - lo == (9 # 10) * (vmin - (vmax - vmin) * m - lo))%Q
    /\ (hi' - hi == (9 # 10) * (vmax + (vmax - vmin) * m - hi))%Q.

(** A figure with one series, [b] against the row index, not yet filled. *)
Definition plot_b : Plot :=
  mkPlot (mkAxes (Fin 0, Fin 1) (Fin 0, Fin 1))
    {[ "b" := mkLine2D [] []; "b_point" := mkLine2D [] [] ]}.

(** [plot_b] after an update with the rows of [table_abc_indexed]. *)
Definition plot_b_updated : Plot :=
  mkPlot (mkAxes (Fin (- 9 # 200), Fin (209 # 200))
                 (Fin (531 # 200), Fin (749 # 200)))
    {[ "b" := mkLine2D [Fin 0; Fin 1] [Fin 3; Fin 4];
       "b_point" := mkLine2D [Fin 1] [Fin 4] ]}.

(** How often the character [c] occurs in [s]. *)
Fixpoint count_char (c : ascii) (s : string) : nat :=
  match s with
  | EmptyString => 0
  | String a s' => (if Ascii.eqb a c then 1 else 0) + count_char c s'
  end.

(** * Properties *)

(** ** Sample runs of the library models *)

Example strip_ex : PyStr.strip "  y(t) " = "y(t)".
Proof. reflexivity. Qed.

Example int_ex1 : PyStr.int " -12 " = ret (-12).
Proof. reflexivity. Qed.

Example int_ex2 : PyStr.int "z" = raise ValueError.
Proof. reflexivity. Qed.

Example int_ex3 : PyStr.int "1_000" = ret 1000 /\ PyStr.int "1__0" = raise ValueError
  /\ PyStr.int "" = raise ValueError /\ PyStr.int "+" = raise ValueError.
Proof. repeat split; reflexivity. Qed.

Example format_f_ex1 : PicoDemo.format_f 0 3 (Fin (1 # 8)) = "0.125".
Proof. reflexivity. Qed.
Example format_f_ex2 : PicoDemo.format_f 0 2 (Fin (1 # 8)) = "0.12".
Proof. reflexivity. Qed.
Example format_f_ex3 : PicoDemo.format_f 0 3 (Fin (- 1 # 10000)) = "-0.000".
Proof. reflexivity. Qed.
Example format_f_ex4 : PicoDemo.format_f 3 6 (Fin (- 25 # 2)) = "-12.500000".
Proof. reflexivity. Qed.
Example format_f_ex5 : PicoDemo.format_f 8 3 (Fin (3 # 2)) = "   1.500".
Proof. reflexivity. Qed.

(** ** Reasoning about [Py] computations *)

Lemma bind_unfold {A B} (m : Py A) (k : A -> Py B) : (m ≫= k) = bind m k.
Proof. reflexivity. Qed.

Lemma bind_ret {A B} (a : A) (k : A -> Py B) : (ret a ≫= k) = k a.
Proof. rewrite bind_unfold. unfold bind, ret. destruct (k a). reflexivity. Qed.

Lemma bind_raise {A B} (e : Exn) (k : A -> Py B) : (raise e ≫= k) = raise e.
Proof. reflexivity. Qed.

Lemma bind_return {A B} out (a : A) (k : A -> Py B) :
  ((out, Return a) ≫= k) = (out ++ (k a).1, (k a).2).
Proof. rewrite bind_unfold. unfold bind. destruct (k a). reflexivity. Qed.

Lemma bind_raised {A B} out e (k : A -> Py B) :
  ((out, Raise e) ≫= k) = (out, Raise e).
Proof. reflexivity. Qed.

Ltac py_simpl :=
  repeat first
    [ rewrite bind_ret
    | rewrite bind_raise
    | rewrite bind_raised
    | rewrite bind_return
    | progress cbn [fst snd app] ].

(** ** The column resolver *)

(** C10. A selector that is literally one of the table's column names
    resolves to itself, whatever else it could be read as: the name lookup
    comes before the positional reading, prints nothing and never raises. *)
Theorem check_col_name_before_position (df : DataFrame) (col : string) (warn : bool) :
  col ∈ columns df ->
  check_col (Some df) col warn = ret (Some col).
Proof.
  intros Hin. unfold check_col, columns_of. py_simpl.
  unfold contains. rewrite bool_decide_eq_true_2 by exact Hin. reflexivity.
Qed.

Lemma check_col_name_before_position_witness :
  "0" ∈ columns table_a_0
  /\ check_col (Some table_a_0) "0" true = ret (Some "0")
  /\ index_getitem (columns table_a_0) 0 = ret "a".
Proof.
  assert (H : "0" ∈ columns table_a_0) by (cbn; set_solver).
  split; [exact H|]. split.
  - exact (check_col_name_before_position table_a_0 "0" true H).
  - reflexivity.
Defined.


(** C2. With the columns a, b, c, the y-selectors ["b"; "z"] do not resolve
    to ["b"] with a warning: [int("z")] raises [ValueError], which the
    [except KeyError] of [check_col] does not catch, so the resolver raises
    and prints nothing.  A position outside the table raises [IndexError]
    in the same way. *)
Theorem organize_cols_unresolvable_raises :
  organize_cols (Some table_abc) None (Some ["b"; "z"]) true = raise ValueError
  /\ organize_cols (Some table_abc) None (Some ["b"; "7"]) true = raise IndexError.
Proof. split; vm_compute; reflexivity. Qed.

(** C3. With warnings disabled the x-selectors are kept on a count
    mismatch: the test that discards them is guarded by [warn].  Two
    x-columns against one y-column then fail the assertion of
    [organize_cols]; two against three are cycled.  With warnings enabled
    the same call discards them and warns. *)
Theorem organize_cols_mismatch_without_warn :
  organize_cols (Some table_abc) (Some ["a"; "c"]) (Some ["b"]) false
    = raise AssertionError
  /\ organize_cols (Some table_abc) (Some ["a"; "b"]) (Some ["a"; "b"; "c"]) false
    = ret (table_abc_indexed, [("a", "a"); ("b", "b"); ("a", "c")])
  /\ organize_cols (Some table_abc) (Some ["a"; "c"]) (Some ["b"]) true
    = (["Warning: Number of x-cols must match the number of y-cols.";
        "Warning: Ignoring x-cols."],
       Return (table_abc_indexed, [("_index", "b")])).
Proof. repeat split; vm_compute; reflexivity. Qed.

(** ** The streaming loop on a read without data *)

Lemma resolve_selectors_None_data (cols : option (list string)) (warn : bool) :
  resolve_selectors None cols warn = ret None
  \/ resolve_selectors None cols warn = raise AttributeError.
Proof.
  destruct cols as [[|c cs]|]; [left; reflexivity | right; reflexivity | left; reflexivity].
Qed.

(** The resolver on [None] in place of a table: every path reads
    [data.columns], an [AttributeError]. *)
Lemma organize_cols_None_data (x_cols y_cols : option (list string)) (warn : bool) :
  organize_cols None x_cols y_cols warn = raise AttributeError.
Proof.
  unfold organize_cols, organize_cols_lists.
  destruct (resolve_selectors_None_data x_cols warn) as [-> | ->];
    [|reflexivity].
  rewrite bind_ret.
  destruct (resolve_selectors_None_data y_cols warn) as [-> | ->];
    reflexivity.
Qed.

(** C1. A pass of the streaming loop whose read yields the no-data sentinel
    does not complete: the sentinel is handed to [organize_cols], which
    raises [AttributeError] before [plot_update] and its [None] guard are
    reached, and the exception ends the loop. *)
Theorem run_iteration_no_data_raises
    (fs : FileSystem) (configs : Configs) (p : Plot) :
  read_data fs (path_to_logs configs) (max_samples configs) = ret None ->
  run_iteration fs configs p = raise AttributeError
  /\ forall open obs, run_streaming configs ((fs, open) :: obs) p = raise AttributeError.
Proof.
  intros Hread.
  assert (H : run_iteration fs configs p = raise AttributeError).
  { unfold run_iteration. rewrite Hread, bind_ret, organize_cols_None_data.
    reflexivity. }
  split; [exact H|]. intros open obs. cbn [run_streaming]. rewrite H. reflexivity.
Qed.

Lemma run_iteration_no_data_raises_witness :
  read_data fs_blank "logging/log.txt" 100 = ret None
  /\ run_iteration fs_blank default_configs empty_plot = raise AttributeError.
Proof.
  assert (H : read_data fs_blank (path_to_logs default_configs)
                (max_samples default_configs) = ret None) by reflexivity.
  split; [exact H|].
  exact (proj1 (run_iteration_no_data_raises fs_blank default_configs empty_plot H)).
Defined.

(** ** Pairing by cycling *)

Section ZipCycle.
Context {A B : Type}.
Implicit Types (xs cur : list A) (ys : list B).

Lemma zip_cycle_from_snd xs cur ys :
  xs <> [] -> (zip_cycle_from xs cur ys).*2 = ys.
Proof.
  intros Hxs. revert cur. induction ys as [|y ys IH]; intros cur; [reflexivity|].
  destruct cur as [|c cur']; [destruct xs as [|c cur']; [done|]|];
    cbn; f_equal; apply IH.
Qed.




End ZipCycle.



(** ** The log reader *)

Lemma read_data_Csv (fs : FileSystem) (path : string) (n_max : Z)
    (header : list string) (nrows : nat) (body : list Series) :
  fs !! path = Some (Csv header nrows body) ->
  read_data fs path n_max =
    if (nrows =? 0)%nat then ret None
    else ret (Some (tail n_max
           (mkDataFrame (PyStr.strip <$> header) (Z.of_nat <$> seq 0 nrows) body))).
Proof.
  intros Hfile. unfold read_data, read_csv. rewrite Hfile. py_simpl.
  cbn [try_except ret]. py_simpl.
  unfold len, rename. cbn [index columns data].
  rewrite length_fmap, length_seq. destruct (nrows =? 0)%nat; reflexivity.
Qed.

(** The claim of C4 fails where no file exists: the parser's
    [FileNotFoundError] is not among the exceptions [read_data] catches. *)
Lemma read_data_missing_file_counterexample :
  read_data ∅ "logging/log.txt" 100 = raise FileNotFoundError
  /\ read_data ∅ "logging/log.txt" 100 <> ret None.
Proof. split; [reflexivity | discriminate]. Qed.

(** C4, amended. At a path where no file exists [read_data] raises
    [FileNotFoundError]; for a file that is empty, or that has a header and
    no rows, it returns the no-data sentinel. *)
Theorem read_data_missing_empty_header_only
    (fs : FileSystem) (path : string) (n_max : Z) :
  (fs !! path = None -> read_data fs path n_max = raise FileNotFoundError)
  /\ (fs !! path = Some Blank -> read_data fs path n_max = ret None)
  /\ (forall header body,
        fs !! path = Some (Csv header 0 body) -> read_data fs path n_max = ret None).
Proof.
  split; [|split].
  - intros H. unfold read_data, read_csv. rewrite H. reflexivity.
  - intros H. unfold read_data, read_csv. rewrite H. reflexivity.
  - intros header body H. rewrite (read_data_Csv _ _ _ _ _ _ H). reflexivity.
Qed.

Lemma read_data_missing_empty_header_only_witness :
  read_data ∅ "logging/log.txt" 100 = raise FileNotFoundError
  /\ read_data fs_blank "logging/log.txt" 100 = ret None
  /\ read_data fs_header_only "logging/log.txt" 100 = ret None.
Proof.
  split; [|split].
  - apply (read_data_missing_empty_header_only ∅ "logging/log.txt" 100).
    reflexivity.
  - apply (read_data_missing_empty_header_only fs_blank "logging/log.txt" 100).
    reflexivity.
  - apply (proj2 (proj2 (read_data_missing_empty_header_only
                           fs_header_only "logging/log.txt" 100))
             [" a"; "b "] [NumSeries []; NumSeries []]).
    reflexivity.
Defined.

(** The claim of C7 fails on a valid file without data rows, for which no
    table is returned, and for a negative bound, which [tail] reads as "all
    rows but the first": with N = -1 two of three rows are returned. *)
Lemma read_data_rows_columns_counterexample :
  read_data fs_header_only "logging/log.txt" 100 = ret None
  /\ exists df, read_data fs_three_rows "logging/log.txt" (-1) = ret (Some df)
                /\ len df = 2%nat /\ ~ (Z.of_nat (len df) <= -1).
Proof.
  split; [reflexivity|]. eexists. split; [reflexivity|].
  split; [reflexivity|]. cbn. lia.
Qed.

(** C7, amended. For a file the parser reads as a header of k fields and at
    least one row, and a bound N >= 0, [read_data] returns a table whose
    rows are the last min(rows, N) rows of the file and whose columns are
    the k header fields, stripped, in order. *)
Theorem read_data_rows_columns (fs : FileSystem) (path : string) (N : Z)
    (header : list string) (nrows : nat) (body : list Series) :
  fs !! path = Some (Csv header nrows body) ->
  (0 < nrows)%nat ->
  0 <= N ->
  exists df,
    read_data fs path N = ret (Some df)
    /\ columns df = PyStr.strip <$> header
    /\ length (columns df) = length header
    /\ Z.of_nat (len df) <= N
    /\ len df = Nat.min nrows (Z.to_nat N)
    /\ index df = Z.of_nat <$> seq (nrows - len df) (len df)
    /\ data df = series_drop (nrows - len df) <$> body
    /\ (well_formed header nrows body ->
        well_formed (columns df) (len df) (data df)).
Proof.
  intros Hfile Hrows HN. rewrite (read_data_Csv _ _ _ _ _ _ Hfile).
  destruct (Nat.eqb_spec nrows 0) as [->|_]; [lia|].
  eexists. split; [reflexivity|].
  unfold tail, len. cbn [columns index data].
  rewrite !length_fmap, !length_seq.
  set (k := if 0 <? N then (nrows - Z.to_nat N)%nat
            else if N =? 0 then nrows else Z.to_nat (- N)).
  assert (Hk : k = (nrows - Z.to_nat N)%nat).
  { subst k. destruct (Z.ltb_spec 0 N); [reflexivity|].
    destruct (Z.eqb_spec N 0) as [->|]; [cbn; lia | lia]. }
  rewrite Hk. clear k Hk.
  rewrite length_drop, length_fmap, length_seq.
  assert (Hlen : (nrows - (nrows - Z.to_nat N) = Nat.min nrows (Z.to_nat N))%nat) by lia.
  split; [reflexivity|]. split; [reflexivity|].
  split; [lia|]. split; [exact Hlen|].
  rewrite Hlen.
  assert (Hdrop : (nrows - Nat.min nrows (Z.to_nat N) = nrows - Z.to_nat N)%nat) by lia.
  rewrite Hdrop. split.
  { rewrite <- fmap_drop. f_equal.
    rewrite <- Hlen. generalize (nrows - Z.to_nat N)%nat as d. intros d.
    destruct (decide (d <= nrows)%nat) as [Hd|Hd].
    - replace nrows with (d + (nrows - d))%nat at 1 by lia.
      rewrite seq_app, drop_app_length'; [|by rewrite length_seq].
      reflexivity.
    - rewrite drop_ge by (rewrite length_seq; lia).
      replace (nrows - d)%nat with 0%nat by lia. reflexivity. }
  split; [reflexivity|].
  intros [Hb Hall]. split.
  - rewrite !length_fmap. exact Hb.
  - apply Forall_fmap. eapply Forall_impl; [exact Hall|].
    intros s Hs. cbn. rewrite <- Hs.
    destruct s; cbn; rewrite length_drop; cbn in Hs; lia.
Qed.

Lemma read_data_rows_columns_witness :
  exists df,
    read_data fs_three_rows "logging/log.txt" 2 = ret (Some df)
    /\ columns df = ["a"; "b"]
    /\ index df = [1; 2]
    /\ data df = [NumSeries [Fin 2; Fin 3]; NumSeries [Fin 3; Fin 4]].
Proof.
  destruct (read_data_rows_columns fs_three_rows "logging/log.txt" 2
              [" a"; "b "] 3
              [NumSeries [Fin 1; Fin 2; Fin 3]; NumSeries [Fin 2; Fin 3; Fin 4]])
    as (df & Hrun & Hcols & _ & _ & Hlen & Hidx & Hdata & _).
  - reflexivity.
  - lia.
  - lia.
  - exists df. split; [exact Hrun|]. split; [rewrite Hcols; reflexivity|].
    rewrite Hidx, Hdata, Hlen. split; reflexivity.
Defined.

(** ** The signal-source demo *)

(** C6. The first field of a data line is written with ["%3f"], six digits
    after the point, and only the other three with ["%.3f"]: the first
    sample (0.5, 0.25) gives the line below, and not the line with four
    three-digit fields.  The header is printed once, before the lines. *)
Theorem demo_line_first_field_six_digits :
  PicoDemo.main [(Fin (1 # 2), Fin (1 # 4)); (Fin (3 # 2), Fin (- 1 # 4))]
    = (["x(t), y(t), x_s(t), y_s(t)";
        "0.500000,0.250,0.500,0.250";
        "1.500000,-0.250,0.600,0.200"],
       Return (PicoDemo.mkState (Some (Fin (3 # 5))) (Some (Fin (1 # 5)))))
  /\ PicoDemo.spec_line (Fin (1 # 2)) (Fin (1 # 4)) (Fin (1 # 2)) (Fin (1 # 4))
     = "0.500,0.250,0.500,0.250"
  /\ PicoDemo.format_line (Fin (1 # 2)) (Fin (1 # 4)) (Fin (1 # 2)) (Fin (1 # 4))
     <> PicoDemo.spec_line (Fin (1 # 2)) (Fin (1 # 4)) (Fin (1 # 2)) (Fin (1 # 4)).
Proof. split; [|split]; [vm_compute; reflexivity .. | vm_compute; discriminate]. Qed.

(** ** Axis rescaling *)

(** C5. The test that decides whether the y limits move divides the y
    discrepancies by the x span [dx], not by the y span.  With x in [0, 1],
    y in [0, 100] and y limits (-15, 115), both y discrepancies are 10, a
    tenth of the y span and inside the threshold, yet the limits move (to
    -6 and 106, nine tenths of the way to the targets -5 and 105).  With x
    in [0, 100], y in [0, 1] and y limits (-1, 2), both discrepancies are
    0.95 of the y span and the limits stay.  The last two lines give the
    lower discrepancy of the first case over the y span and over the x
    span. *)
Theorem plot_update_limits_y_test_uses_x_span :
  plot_update_limits (Fin (1 # 20))
      (mkBBox (Fin 0) (Fin 1) (Fin 0) (Fin 100))
      (mkAxes (Fin (- 1 # 20), Fin (21 # 20)) (Fin (- 15), Fin 115))
    = ret (mkAxes (Fin (- 1 # 20), Fin (21 # 20)) (Fin (- 6), Fin 106))
  /\ plot_update_limits (Fin (1 # 20))
      (mkBBox (Fin 0) (Fin 100) (Fin 0) (Fin 1))
      (mkAxes (Fin (- 5), Fin 105) (Fin (- 1), Fin 2))
    = ret (mkAxes (Fin (- 5), Fin 105) (Fin (- 1), Fin 2))
  /\ ((Fin (- 5) - Fin (- 15)) / (Fin 100 - Fin 0))%fl = Fin (1 # 10)
  /\ ((Fin (- 5) - Fin (- 15)) / (Fin 1 - Fin 0))%fl = Fin 10.
Proof. repeat split; vm_compute; reflexivity. Qed.


Section QFacts.
Local Open Scope Q_scope.






End QFacts.

Section NudgeFacts.
Local Open Scope Q_scope.



End NudgeFacts.

Section Settling.
Local Open Scope Q_scope.





Variables m xmin xmax ymin ymax : Q.
Hypothesis Hspan : xmin < xmax.

Let bb : BBox := mkBBox (Fin xmin) (Fin xmax) (Fin ymin) (Fin ymax).
















End Settling.




Example rescale_settles_run :
  rescale_cycles 1 (Fin (1 # 20)) unit_box
      (mkAxes (Fin (- 2), Fin 3) (Fin (- 1), Fin 2))
    = ret (mkAxes (Fin (- 49 # 200), Fin (249 # 200)) (Fin (- 29 # 200), Fin (229 # 200)))
  /\ rescale_cycles 2 (Fin (1 # 20)) unit_box
      (mkAxes (Fin (- 2), Fin 3) (Fin (- 1), Fin 2))
    = ret (mkAxes (Fin (- 49 # 200), Fin (249 # 200)) (Fin (- 29 # 200), Fin (229 # 200))).
Proof. split; vm_compute; reflexivity. Qed.

Example rescale_tight_run :
  rescale_cycles 1 (Fin (1 # 20)) unit_box tight_axes
    = ret (mkAxes (Fin (- 9 # 200), Fin (209 # 200)) (Fin (- 9 # 200), Fin (209 # 200)))
  /\ rescale_cycles 2 (Fin (1 # 20)) unit_box tight_axes
    = ret (mkAxes (Fin (- 99 # 2000), Fin (2099 # 2000))
                  (Fin (- 99 # 2000), Fin (2099 # 2000))).
Proof. split; vm_compute; reflexivity. Qed.

(** * Further properties of the code *)

(** ** Resolving one selector *)

Lemma index_getitem_in_range (cols : list string) (i : Z) :
  - Z.of_nat (length cols) <= i < Z.of_nat (length cols) ->
  exists name,
    cols !! Z.to_nat (i mod Z.of_nat (length cols)) = Some name
    /\ index_getitem cols i = ret name.
Proof.
  intros Hi. unfold index_getitem.
  set (n := Z.of_nat (length cols)) in *.
  assert (Hj : (if i <? 0 then i + n else i) = i mod n).
  { destruct (Z.ltb_spec i 0).
    - apply Z.mod_unique with (q := -1); lia.
    - symmetry. apply Z.mod_small. lia. }
  rewrite Hj.
  assert (Hr : 0 <= i mod n < n) by (apply Z.mod_pos_bound; lia).
  destruct (Z.leb_spec 0 (i mod n)); [|lia].
  destruct (Z.ltb_spec (i mod n) n); [|lia].
  cbn [andb].
  destruct (lookup_lt_is_Some_2 cols (Z.to_nat (i mod n))) as [name Hname];
    [subst n; lia|].
  exists name. rewrite Hname. split; reflexivity.
Qed.

Lemma index_getitem_out_of_range (cols : list string) (i : Z) :
  ~ (- Z.of_nat (length cols) <= i < Z.of_nat (length cols)) ->
  index_getitem cols i = raise IndexError.
Proof.
  intros Hi. unfold index_getitem.
  set (n := Z.of_nat (length cols)) in *.
  set (j := if i <? 0 then i + n else i).
  assert (Hj : j = i + n /\ i < 0 \/ j = i /\ 0 <= i).
  { subst j. destruct (Z.ltb_spec i 0); [left | right]; split; (reflexivity || lia). }
  destruct (Z.leb_spec 0 j); [|reflexivity].
  destruct (Z.ltb_spec j n); [|reflexivity].
  exfalso. lia.
Qed.

Lemma index_getitem_cases (cols : list string) (i : Z) :
  (exists name, name ∈ cols /\ index_getitem cols i = ret name)
  \/ index_getitem cols i = raise IndexError.
Proof.
  destruct (decide (- Z.of_nat (length cols) <= i < Z.of_nat (length cols)))
    as [Hi|Hi].
  - left. destruct (index_getitem_in_range cols i Hi) as (name & Hl & Hr).
    exists name. split; [eapply list_elem_of_lookup_2; exact Hl | exact Hr].
  - right. apply index_getitem_out_of_range, Hi.
Qed.

(** [check_col] on a table, without its unreachable handler. *)
Lemma check_col_table (df : DataFrame) (col : string) (warn : bool) :
  check_col (Some df) col warn =
    if contains (columns df) col then ret (Some col)
    else match PyStr.parse_int col with
         | None => raise ValueError
         | Some i => name ← index_getitem (columns df) i; ret (Some name)
         end.
Proof.
  unfold check_col, columns_of. rewrite bind_ret.
  destruct (contains (columns df) col); [reflexivity|].
  unfold PyStr.int. destruct (PyStr.parse_int col) as [i|]; [|reflexivity].
  rewrite bind_ret.
  destruct (index_getitem_cases (columns df) i) as [(name & _ & ->) | ->];
    reflexivity.
Qed.



(** X3. Whatever [check_col] returns for a table is one of the table's
    column names, and nothing is printed on the way. *)
Theorem check_col_returns_column (df : DataFrame) (col : string) (warn : bool)
    (out : list string) (name : string) :
  check_col (Some df) col warn = (out, Return (Some name)) ->
  name ∈ columns df /\ out = [].
Proof.
  rewrite check_col_table. unfold contains.
  destruct (bool_decide_reflect (col ∈ columns df)) as [Hin|_].
  - intros [= <- <-]. split; [exact Hin | reflexivity].
  - destruct (PyStr.parse_int col) as [i|]; [|discriminate].
    destruct (index_getitem_cases (columns df) i) as [(c & Hc & ->) | ->].
    + rewrite bind_ret. intros [= <- <-]. split; [exact Hc | reflexivity].
    + discriminate.
Qed.

Lemma check_col_returns_column_witness :
  check_col (Some table_abc) "1" true = ([], Return (Some "b"))
  /\ "b" ∈ columns table_abc.
Proof.
  assert (H : check_col (Some table_abc) "1" true = ([], Return (Some "b")))
    by reflexivity.
  split; [exact H|].
  exact (proj1 (check_col_returns_column table_abc "1" true [] "b" H)).
Defined.

(** ** Resolving the selector lists *)

Lemma check_col_cases (df : DataFrame) (col : string) (warn : bool) :
  (exists name, name ∈ columns df /\ check_col (Some df) col warn = ret (Some name))
  \/ check_col (Some df) col warn = raise ValueError
  \/ check_col (Some df) col warn = raise IndexError.
Proof.
  rewrite check_col_table. unfold contains.
  destruct (bool_decide_reflect (col ∈ columns df)) as [Hin|_]; [left; eauto|].
  destruct (PyStr.parse_int col) as [i|]; [|right; left; reflexivity].
  destruct (index_getitem_cases (columns df) i) as [(c & Hc & ->) | ->].
  - left. exists c. split; [exact Hc | reflexivity].
  - right. right. reflexivity.
Qed.

Lemma omap_id_Some {A} (l : list A) : omap id (Some <$> l) = l.
Proof. induction l as [|x l IH]; [reflexivity|]. cbn. f_equal. exact IH. Qed.

Lemma mapM_check_col (df : DataFrame) (cols : list string) (warn : bool) :
  (exists names,
     mapM (fun col => check_col (Some df) col warn) cols = ret (Some <$> names)
     /\ Forall (fun name => name ∈ columns df) names
     /\ length names = length cols)
  \/ mapM (fun col => check_col (Some df) col warn) cols = raise ValueError
  \/ mapM (fun col => check_col (Some df) col warn) cols = raise IndexError.
Proof.
  induction cols as [|col cols IH].
  - left. exists []. split; [reflexivity|]. split; [constructor | reflexivity].
  - cbn [mapM].
    destruct (check_col_cases df col warn) as [(name & Hname & ->) | [-> | ->]];
      [|right; left; reflexivity | right; right; reflexivity].
    rewrite bind_ret.
    destruct IH as [(names & -> & Hall & Hlen) | [-> | ->]];
      [|right; left; reflexivity | right; right; reflexivity].
    rewrite bind_ret. left. exists (name :: names).
    split; [reflexivity|]. split; [constructor; assumption | cbn; lia].
Qed.

(** Selectors that are column names resolve to themselves, in order. *)
Lemma mapM_check_col_names (df : DataFrame) (cols : list string) (warn : bool) :
  Forall (fun col => col ∈ columns df) cols ->
  mapM (fun col => check_col (Some df) col warn) cols = ret (Some <$> cols).
Proof.
  induction 1 as [|col cols Hcol _ IH]; [reflexivity|].
  cbn [mapM]. rewrite check_col_table. unfold contains.
  rewrite bool_decide_eq_true_2 by exact Hcol.
  rewrite bind_ret, IH, bind_ret. reflexivity.
Qed.

(** What resolving a selector list against a table can come to. *)
Lemma resolve_selectors_cases (df : DataFrame) (sel : option (list string))
    (warn : bool) :
  (resolve_selectors (Some df) sel warn = ret None /\ (sel = None \/ sel = Some []))
  \/ (exists names l,
        resolve_selectors (Some df) sel warn = ret (Some names)
        /\ sel = Some l /\ length names = length l /\ names <> []
        /\ Forall (fun name => name ∈ columns df) names)
  \/ resolve_selectors (Some df) sel warn = raise ValueError
  \/ resolve_selectors (Some df) sel warn = raise IndexError.
Proof.
  destruct sel as [l|]; [|left; split; [reflexivity | left; reflexivity]].
  cbn [resolve_selectors].
  destruct (mapM_check_col df l warn) as [(names & -> & Hall & Hlen) | [-> | ->]];
    [|right; right; left; reflexivity | right; right; right; reflexivity].
  rewrite bind_ret, omap_id_Some.
  destruct names as [|name names].
  - left. split; [reflexivity|]. right. destruct l; [reflexivity | discriminate].
  - right. left. exists (name :: names), l. repeat split; try assumption; done.
Qed.

(** The lists [organize_cols] pairs: x names are columns or the synthetic
    index, y names are columns, and with warnings on and y-selectors given
    there are at most as many x as y. *)
Lemma organize_cols_lists_columns (df : DataFrame)
    (x_sel y_sel : option (list string)) (warn : bool)
    (out : list string) (xs ys : list string) :
  organize_cols_lists (Some df) x_sel y_sel warn = (out, Return (xs, ys)) ->
  Forall (fun name => name ∈ "_index" :: columns df) xs
  /\ Forall (fun name => name ∈ columns df) ys
  /\ xs <> []
  /\ (warn = true -> (exists l, y_sel = Some l /\ l <> []) ->
      (length xs <= length ys)%nat).
Proof.
  unfold organize_cols_lists.
  destruct (resolve_selectors_cases df x_sel warn)
    as [[-> _] | [(xn & xl & -> & _ & _ & Hxne & Hxall) | [-> | ->]]];
    try discriminate; rewrite bind_ret;
    (destruct (resolve_selectors_cases df y_sel warn)
      as [[-> Hy] | [(yn & yl & -> & Hysel & Hylen & Hyne & Hyall) | [-> | ->]]];
     try discriminate; rewrite bind_ret).
  - (* x absent, y absent *)
    cbn. intros [= <- <- <-]. repeat split.
    + repeat constructor.
    + apply Forall_forall. auto.
    + discriminate.
    + intros _ (l & -> & Hl). destruct Hy as [Hy|Hy]; congruence.
  - (* x absent, y resolved *)
    cbn. intros [= <- <- <-]. repeat split.
    + repeat constructor.
    + exact Hyall.
    + discriminate.
    + intros _ _. destruct yn; [done | cbn; lia].
  - (* x resolved, y absent *)
    cbn. intros [= <- <- <-]. repeat split.
    + eapply Forall_impl; [exact Hxall|]. intros a Ha. right. exact Ha.
    + apply Forall_forall. auto.
    + exact Hxne.
    + intros _ (l & -> & Hl). destruct Hy as [Hy|Hy]; congruence.
  - (* x resolved, y resolved *)
    destruct (negb (length xn =? length yn)%nat && (1 <? length xn)%nat) eqn:Emis;
      destruct warn; cbn [andb].
    + py_simpl. intros [= <- <- <-]. repeat split.
      * repeat constructor.
      * exact Hyall.
      * discriminate.
      * intros _ _. destruct yn; [done | cbn; lia].
    + py_simpl. intros [= <- <- <-]. repeat split.
      * eapply Forall_impl; [exact Hxall|]. intros a Ha. right. exact Ha.
      * exact Hyall.
      * exact Hxne.
      * discriminate.
    + py_simpl. intros [= <- <- <-]. repeat split.
      * eapply Forall_impl; [exact Hxall|]. intros a Ha. right. exact Ha.
      * exact Hyall.
      * exact Hxne.
      * intros _ _. apply andb_false_iff in Emis as [E|E].
        -- apply negb_false_iff, Nat.eqb_eq in E. lia.
        -- apply Nat.ltb_ge in E. destruct yn; [done|].
           destruct xn; [done|]. cbn in *. lia.
    + py_simpl. intros [= <- <- <-]. repeat split.
      * eapply Forall_impl; [exact Hxall|]. intros a Ha. right. exact Ha.
      * exact Hyall.
      * exact Hxne.
      * discriminate.
Qed.

Lemma organize_cols_lists_raises (df : DataFrame)
    (x_sel y_sel : option (list string)) (warn : bool)
    (out : list string) (e : Exn) :
  organize_cols_lists (Some df) x_sel y_sel warn = (out, Raise e) ->
  e = ValueError \/ e = IndexError.
Proof.
  unfold organize_cols_lists.
  destruct (resolve_selectors_cases df x_sel warn)
    as [[-> _] | [(xn & xl & -> & _ & _ & _ & _) | [-> | ->]]];
    try (intros [= <- <-]; auto; fail); rewrite bind_ret;
    (destruct (resolve_selectors_cases df y_sel warn)
      as [[-> _] | [(yn & yl & -> & _ & _ & _ & _) | [-> | ->]]];
     try (intros [= <- <-]; auto; fail); rewrite bind_ret);
    try (cbn; discriminate).
  destruct (negb (length xn =? length yn)%nat && (1 <? length xn)%nat);
    destruct warn; cbn [andb]; py_simpl; discriminate.
Qed.

Lemma zip_cycle_single {A B} (x : A) (ys : list B) :
  zip_cycle [x] ys = (fun y => (x, y)) <$> ys.
Proof.
  unfold zip_cycle.
  assert (H : forall cur, cur = [x] \/ cur = [] ->
            zip_cycle_from [x] cur ys = (fun y => (x, y)) <$> ys).
  { induction ys as [|y ys IH]; intros cur Hcur; [reflexivity|].
    destruct Hcur as [-> | ->]; cbn; f_equal; apply IH; auto. }
  apply H. left. reflexivity.
Qed.

Lemma zip_cycle_from_elem {A B} (xs cur : list A) (ys : list B) (a : A) (b : B) :
  (a, b) ∈ zip_cycle_from xs cur ys -> (a ∈ xs \/ a ∈ cur) /\ b ∈ ys.
Proof.
  revert cur. induction ys as [|y ys IH]; intros cur H; [by apply elem_of_nil in H|].
  destruct cur as [|c cur']; [destruct xs as [|c cur']|]; cbn in H.
  - by apply elem_of_nil in H.
  - apply elem_of_cons in H as [[= -> ->] | H].
    + split; [left; left | left].
    + apply IH in H as [[H|H] Hb]; (split; [|right; exact Hb]).
      * left. exact H.
      * left. right. exact H.
  - apply elem_of_cons in H as [[= -> ->] | H].
    + split; [right; left | left].
    + apply IH in H as [[H|H] Hb]; (split; [|right; exact Hb]).
      * left. exact H.
      * right. right. exact H.
Qed.

(** Rewriting with [bind_ret] at the first place it applies. *)
Ltac py_ret :=
  repeat match goal with
  | |- context [@mbind Py Py_bind ?A ?B ?k (@ret ?A ?a)] =>
      rewrite (@bind_ret A B a k)
  end.

(** X4. Without selectors, a table with at least one column and no column
    "_index" gives one pair ("_index", c) per column c, in column order;
    the table returned has the row labels as its new first column
    "_index"; nothing is printed. *)
Theorem organize_cols_defaults (df : DataFrame) (warn : bool) :
  columns df <> [] ->
  "_index" ∉ columns df ->
  organize_cols (Some df) None None warn =
    ret (mkDataFrame ("_index" :: columns df)
                     (Z.of_nat <$> seq 0 (len df))
                     (NumSeries (Fl.of_Z <$> index df) :: data df),
         (fun c => ("_index", c)) <$> columns df).
Proof.
  intros Hne Hidx. unfold organize_cols, organize_cols_lists.
  cbn [resolve_selectors columns_of]. py_ret. cbn [from_option].
  unfold assert.
  destruct (columns df) as [|c cs] eqn:Ecols; [done|].
  cbn [length Nat.leb]. py_ret.
  unfold reset_index, contains. cbn [columns]. rewrite Ecols.
  rewrite bool_decide_eq_false_2 by exact Hidx.
  py_ret. rewrite zip_cycle_single. reflexivity.
Qed.

Lemma organize_cols_defaults_witness :
  organize_cols (Some table_abc) None None false =
    ret (table_abc_indexed, [("_index", "a"); ("_index", "b"); ("_index", "c")]).
Proof.
  rewrite (organize_cols_defaults table_abc false).
  - reflexivity.
  - discriminate.
  - apply (bool_decide_unpack _). vm_compute. exact I.
Defined.

(** X5. With warnings on and at least one y-selector given, the assertion
    of [organize_cols] never fails: a call that raises does so with the
    [ValueError] or [IndexError] of a selector or of [reset_index]. *)
Theorem organize_cols_warn_assertion_holds (df : DataFrame)
    (x_sel : option (list string)) (y_sel : list string) :
  y_sel <> [] ->
  (organize_cols (Some df) x_sel (Some y_sel) true).2 <> Raise AssertionError.
Proof.
  intros Hy. unfold organize_cols.
  destruct (organize_cols_lists (Some df) x_sel (Some y_sel) true)
    as [out [e | [xs ys]]] eqn:El.
  - apply organize_cols_lists_raises in El. rewrite bind_raised. cbn.
    destruct El as [-> | ->]; discriminate.
  - destruct (organize_cols_lists_columns _ _ _ _ _ _ _ El) as (_ & _ & _ & Hlen).
    rewrite bind_return. cbn [snd]. unfold assert.
    rewrite (proj2 (Nat.leb_le _ _) (Hlen eq_refl (ex_intro _ y_sel (conj eq_refl Hy)))).
    rewrite bind_ret. unfold reset_index.
    destruct (contains (columns df) "_index"); cbn; discriminate.
Qed.

Lemma organize_cols_warn_assertion_holds_witness :
  ["b"] <> ([] : list string)
  /\ (organize_cols (Some table_abc) (Some ["a"; "c"]) (Some ["b"]) true).2
     <> Raise AssertionError.
Proof.
  assert (H : ["b"] <> ([] : list string)) by discriminate.
  split; [exact H|].
  exact (organize_cols_warn_assertion_holds table_abc (Some ["a"; "c"]) ["b"] H).
Defined.

(** X6. Every pair [organize_cols] returns names two columns of the table
    it returns with them, whose columns are "_index" followed by the
    columns of the table given. *)
Theorem organize_cols_pairs_in_table (df : DataFrame)
    (x_sel y_sel : option (list string)) (warn : bool)
    (out : list string) (df' : DataFrame) (pairs : list (string * string)) :
  organize_cols (Some df) x_sel y_sel warn = (out, Return (df', pairs)) ->
  columns df' = "_index" :: columns df
  /\ forall x y, (x, y) ∈ pairs -> x ∈ columns df' /\ y ∈ columns df'.
Proof.
  unfold organize_cols.
  destruct (organize_cols_lists (Some df) x_sel y_sel warn)
    as [out1 [e | [xs ys]]] eqn:El; [discriminate|].
  destruct (organize_cols_lists_columns _ _ _ _ _ _ _ El) as (Hxs & Hys & _ & _).
  rewrite bind_return. cbn [fst snd]. unfold assert.
  destruct (length xs <=? length ys)%nat; [|discriminate].
  rewrite bind_ret. unfold reset_index.
  destruct (contains (columns df) "_index"); [discriminate|].
  rewrite bind_ret. cbn. intros [= <- <- <-]. cbn [columns].
  split; [reflexivity|]. intros x y Hin.
  apply zip_cycle_from_elem in Hin as [Hx Hy].
  rewrite Forall_forall in Hxs, Hys. split.
  - apply Hxs. tauto.
  - right. apply Hys. exact Hy.
Qed.

Lemma organize_cols_pairs_in_table_witness :
  organize_cols (Some table_abc) (Some ["a"; "b"]) (Some ["a"; "b"; "c"]) false
    = ([], Return (table_abc_indexed, [("a", "a"); ("b", "b"); ("a", "c")]))
  /\ forall x y, (x, y) ∈ [("a", "a"); ("b", "b"); ("a", "c")] ->
       x ∈ columns table_abc_indexed /\ y ∈ columns table_abc_indexed.
Proof.
  assert (H : organize_cols (Some table_abc) (Some ["a"; "b"])
                (Some ["a"; "b"; "c"]) false
              = ([], Return (table_abc_indexed,
                             [("a", "a"); ("b", "b"); ("a", "c")])))
    by reflexivity.
  split; [exact H|].
  exact (proj2 (organize_cols_pairs_in_table _ _ _ _ _ _ _ H)).
Defined.

(** X7. With x-selectors only, all of them column names and more of them
    than the table has columns, the call fails its own assertion, with
    warnings on or off: the count check is made only when y-selectors are
    given too. *)
Theorem organize_cols_x_only_overflow (df : DataFrame) (x_sel : list string)
    (warn : bool) :
  Forall (fun col => col ∈ columns df) x_sel ->
  (length (columns df) < length x_sel)%nat ->
  organize_cols (Some df) (Some x_sel) None warn = raise AssertionError.
Proof.
  intros Hall Hlen. unfold organize_cols, organize_cols_lists.
  cbn [resolve_selectors]. rewrite mapM_check_col_names by exact Hall.
  rewrite bind_ret, omap_id_Some.
  destruct x_sel as [|x xs]; [cbn in Hlen; lia|].
  cbn [length Nat.ltb Nat.leb]. py_ret. cbn [from_option columns_of].
  py_ret. unfold assert, id.
  rewrite (proj2 (Nat.leb_gt _ _) Hlen). reflexivity.
Qed.

Lemma organize_cols_x_only_overflow_witness :
  organize_cols (Some table_abc) (Some ["a"; "b"; "c"; "a"]) None true
    = raise AssertionError.
Proof.
  apply organize_cols_x_only_overflow.
  - repeat constructor; apply (bool_decide_unpack _); vm_compute; exact I.
  - cbn. lia.
Defined.

(** X8. A table that already has a column "_index" cannot be organised:
    without selectors the final [reset_index] refuses the name with a
    [ValueError]. *)
Theorem organize_cols_index_column_taken (df : DataFrame) (warn : bool) :
  "_index" ∈ columns df ->
  organize_cols (Some df) None None warn = raise ValueError.
Proof.
  intros Hidx. unfold organize_cols, organize_cols_lists.
  cbn [resolve_selectors columns_of]. py_ret. cbn [from_option].
  unfold assert.
  destruct (columns df) as [|c cs] eqn:Ecols; [by apply elem_of_nil in Hidx|].
  cbn [length Nat.leb]. py_ret.
  unfold reset_index, contains. rewrite Ecols.
  rewrite bool_decide_eq_true_2 by exact Hidx. reflexivity.
Qed.

Lemma organize_cols_index_column_taken_witness :
  organize_cols (Some table_abc_indexed) None None true = raise ValueError.
Proof.
  apply organize_cols_index_column_taken.
  apply (bool_decide_unpack _). vm_compute. exact I.
Defined.

(** X9. When there are no more y-columns than x-columns, cycling never
    wraps: the pairs are the positional [zip] of the two lists. *)
Theorem zip_cycle_no_wrap {A B} (xs : list A) (ys : list B) :
  (length ys <= length xs)%nat ->
  zip_cycle xs ys = zip xs ys.
Proof.
  intros Hlen. unfold zip_cycle. generalize xs at 1 as base.
  intros base. revert xs Hlen. induction ys as [|y ys IH]; intros xs Hlen.
  - destruct xs; reflexivity.
  - destruct xs as [|x xs]; [cbn in Hlen; lia|].
    cbn. f_equal. apply IH. cbn in Hlen. lia.
Qed.

Lemma zip_cycle_no_wrap_witness :
  zip_cycle ["a"; "c"] ["b"; "d"] = [("a", "b"); ("c", "d")].
Proof.
  rewrite (zip_cycle_no_wrap ["a"; "c"] ["b"; "d"]); [reflexivity | cbn; lia].
Defined.

(** ** The log reader, continued *)

Lemma read_data_cases (fs : FileSystem) (path : string) (n_max : Z) :
  read_data fs path n_max = raise FileNotFoundError
  \/ read_data fs path n_max = raise ParserError
  \/ read_data fs path n_max = ret None
  \/ exists header nrows body,
       fs !! path = Some (Csv header nrows body) /\ (0 < nrows)%nat
       /\ read_data fs path n_max =
            ret (Some (tail n_max (mkDataFrame (PyStr.strip <$> header)
                                     (Z.of_nat <$> seq 0 nrows) body))).
Proof.
  destruct (fs !! path) as [[| |header nrows body]|] eqn:E.
  - right. right. left. unfold read_data, read_csv. rewrite E. reflexivity.
  - right. left. unfold read_data, read_csv. rewrite E. reflexivity.
  - rewrite (read_data_Csv _ _ _ _ _ _ E).
    destruct nrows as [|k]; [right; right; left; reflexivity|].
    right. right. right. exists header, (S k), body.
    split; [reflexivity|]. split; [lia | reflexivity].
  - left. unfold read_data, read_csv. rewrite E. reflexivity.
Qed.

Lemma tail_len (n : Z) (df : DataFrame) :
  len (tail n df) =
    if 0 <? n then Nat.min (len df) (Z.to_nat n)
    else if n =? 0 then 0%nat
    else (len df - Z.to_nat (- n))%nat.
Proof.
  unfold tail, len. cbn [index]. cbv zeta.
  destruct (Z.ltb_spec 0 n); [rewrite length_drop; lia|].
  destruct (Z.eqb_spec n 0) as [->|]; rewrite length_drop; [lia | reflexivity].
Qed.

(** X10. With a positive bound, a table returned by [read_data] has at
    least one row and at most [n_max] rows, and nothing is printed. *)
Theorem read_data_table_rows (fs : FileSystem) (path : string) (n_max : Z)
    (out : list string) (df : DataFrame) :
  0 < n_max ->
  read_data fs path n_max = (out, Return (Some df)) ->
  (1 <= len df)%nat /\ Z.of_nat (len df) <= n_max /\ out = [].
Proof.
  intros Hn.
  destruct (read_data_cases fs path n_max)
    as [-> | [-> | [-> | (header & nrows & body & _ & Hrows & ->)]]];
    try discriminate.
  intros [= <- <-]. rewrite tail_len.
  destruct (Z.ltb_spec 0 n_max); [|lia].
  unfold len. cbn [index]. rewrite length_fmap, length_seq.
  repeat split; lia.
Qed.

Lemma read_data_table_rows_witness :
  read_data fs_three_rows "logging/log.txt" 2
    = ([], Return (Some (mkDataFrame ["a"; "b"] [1; 2]
                           [NumSeries [Fin 2; Fin 3]; NumSeries [Fin 3; Fin 4]])))
  /\ (1 <= 2)%nat.
Proof.
  assert (H : read_data fs_three_rows "logging/log.txt" 2
              = ([], Return (Some (mkDataFrame ["a"; "b"] [1; 2]
                   [NumSeries [Fin 2; Fin 3]; NumSeries [Fin 3; Fin 4]]))))
    by reflexivity.
  split; [exact H|].
  exact (proj1 (read_data_table_rows _ _ 2 _ _ ltac:(lia) H)).
Defined.

(** X11. A file the parser rejects is not treated as "no data": the
    [ParserError] passes through [read_data], which catches the parser's
    [EmptyDataError] only. *)
Theorem read_data_parser_error_propagates (fs : FileSystem) (path : string)
    (n_max : Z) :
  fs !! path = Some Malformed ->
  read_data fs path n_max = raise ParserError.
Proof. intros H. unfold read_data, read_csv. rewrite H. reflexivity. Qed.

Lemma read_data_parser_error_propagates_witness :
  read_data {[ "logging/log.txt" := Malformed ]} "logging/log.txt" 100
    = raise ParserError.
Proof.
  apply (read_data_parser_error_propagates
           {[ "logging/log.txt" := Malformed ]} "logging/log.txt" 100).
  reflexivity.
Defined.

(** X12. A bound of zero or less does not give the no-data sentinel for a
    file with rows: [read_data] returns a table with the header's columns,
    without rows for a bound of zero, and with all rows but the first
    [-n_max] for a negative bound. *)
Theorem read_data_nonpositive_bound (fs : FileSystem) (path : string) (n_max : Z)
    (header : list string) (nrows : nat) (body : list Series) :
  fs !! path = Some (Csv header nrows body) ->
  (0 < nrows)%nat ->
  n_max <= 0 ->
  exists df,
    read_data fs path n_max = ret (Some df)
    /\ columns df = PyStr.strip <$> header
    /\ len df = if n_max =? 0 then 0%nat else (nrows - Z.to_nat (- n_max))%nat.
Proof.
  intros Hfile Hrows Hn. rewrite (read_data_Csv _ _ _ _ _ _ Hfile).
  destruct (Nat.eqb_spec nrows 0) as [->|_]; [lia|].
  eexists. split; [reflexivity|]. split; [reflexivity|].
  rewrite tail_len. destruct (Z.ltb_spec 0 n_max); [lia|].
  unfold len. cbn [index]. rewrite length_fmap, length_seq. reflexivity.
Qed.

Lemma read_data_nonpositive_bound_witness :
  exists df,
    read_data fs_three_rows "logging/log.txt" 0 = ret (Some df)
    /\ columns df = ["a"; "b"] /\ len df = 0%nat.
Proof.
  destruct (read_data_nonpositive_bound fs_three_rows "logging/log.txt" 0
              [" a"; "b "] 3
              [NumSeries [Fin 1; Fin 2; Fin 3]; NumSeries [Fin 2; Fin 3; Fin 4]])
    as (df & Hrun & Hcols & Hlen); [reflexivity | lia | lia |].
  exists df. split; [exact Hrun|]. split; [rewrite Hcols; reflexivity | exact Hlen].
Defined.

(** ** The blocking read *)

(** X13. [read_data_until] returns exactly when some read ends the
    polling: every earlier read found no data and was followed by a clock
    reading within the timeout, and this read either found a table, which
    is returned, or found none and was followed by a clock reading past
    the timeout, and the sentinel is returned.  So the first read is made
    whatever the timeout is, and the sentinel is never returned before the
    timeout has passed. *)
Theorem read_data_until_finished (polls : list (FileSystem * Q)) (path : string)
    (timeout : Q) (n_max : Z) (r : option DataFrame) :
  read_data_until polls path timeout n_max = ret (Finished r)
  <-> exists before fs t after,
        polls = before ++ (fs, t) :: after
        /\ Forall (fun p => read_data p.1 path n_max = ret None
                            /\ (p.2 <= timeout)%Q) before
        /\ read_data fs path n_max = ret r
        /\ (r = None -> (timeout < t)%Q).
Proof.
  split.
  - induction polls as [|[fs t] polls IH]; [discriminate|].
    cbn [read_data_until].
    destruct (read_data_cases fs path n_max)
      as [E | [E | [E | (header & nrows & body & _ & _ & E)]]];
      rewrite E; try discriminate; rewrite bind_ret.
    + destruct (t ?= timeout)%Q eqn:Ecmp.
      * intros H. destruct (IH H) as (before & fs' & t' & after & -> & Hb & Hr & Ht).
        exists ((fs, t) :: before), fs', t', after.
        split; [reflexivity|]. split; [|split; assumption].
        constructor; [|exact Hb]. split; [exact E|].
        apply Qle_alt. cbn. rewrite Ecmp. discriminate.
      * intros H. destruct (IH H) as (before & fs' & t' & after & -> & Hb & Hr & Ht).
        exists ((fs, t) :: before), fs', t', after.
        split; [reflexivity|]. split; [|split; assumption].
        constructor; [|exact Hb]. split; [exact E|].
        apply Qle_alt. cbn. rewrite Ecmp. discriminate.
      * intros [= <-]. exists [], fs, t, polls.
        split; [reflexivity|]. split; [constructor|]. split; [exact E|].
        intros _. apply Qgt_alt. exact Ecmp.
    + intros [= <-]. exists [], fs, t, polls.
      split; [reflexivity|]. split; [constructor|]. split; [exact E|].
      discriminate.
  - intros (before & fs & t & after & -> & Hb & Hr & Ht).
    induction Hb as [|[fs0 t0] before [Hread Hle] _ IH].
    + cbn [app read_data_until]. rewrite Hr, bind_ret.
      destruct r as [df|]; [reflexivity|].
      apply Qgt_alt in Ht; [|reflexivity]. rewrite Ht. reflexivity.
    + cbn [app read_data_until]. cbn [fst snd] in Hread, Hle.
      rewrite Hread, bind_ret.
      destruct (t0 ?= timeout)%Q eqn:Ecmp; [exact IH | exact IH |].
      apply Qgt_alt in Ecmp. lra.
Qed.

(** ** Updating the lines *)

Lemma bind_Return_inv {A B} (m : Py A) (k : A -> Py B) out (b : B) :
  (m ≫= k) = (out, Return b) ->
  exists out1 a out2,
    m = (out1, Return a) /\ k a = (out2, Return b) /\ out = out1 ++ out2.
Proof.
  rewrite bind_unfold. unfold bind. destruct m as [out1 [e|a]]; [discriminate|].
  destruct (k a) as [out2 r] eqn:Ek. intros [= <- ->].
  exists out1, a, out2. auto.
Qed.

(** A property of the loop state that every pass keeps holds when the loop
    returns. *)
Lemma foldM_invariant {A S} (P : S -> Prop) (f : S -> A -> Py S) :
  (forall s x out s', P s -> f s x = (out, Return s') -> P s') ->
  forall l s out s', P s -> foldM f s l = (out, Return s') -> P s'.
Proof.
  intros Hstep. induction l as [|x l IH]; intros s out s' Hs.
  - intros [= _ <-]. exact Hs.
  - cbn [foldM]. intros H.
    apply bind_Return_inv in H as (out1 & s1 & out2 & H1 & H2 & _).
    eapply IH; [|exact H2]. eapply Hstep; eassumption.
Qed.

Lemma set_line_dom (h : gmap string Line2D) (label : string)
    (upd : Line2D -> Line2D) out (h' : gmap string Line2D) :
  set_line h label upd = (out, Return h') -> dom h' = dom h /\ out = [].
Proof.
  unfold set_line. destruct (h !! label) as [line|] eqn:E; [|discriminate].
  intros [= <- <-]. split; [|reflexivity].
  apply dom_insert_lookup_L. eauto.
Qed.

Lemma plot_update_pair_dom (df : DataFrame) (h : gmap string Line2D) (bb : BBox)
    (pair : string * string) out (h' : gmap string Line2D) (bb' : BBox) :
  plot_update_pair df (h, bb) pair = (out, Return (h', bb')) ->
  dom h' = dom h.
Proof.
  unfold plot_update_pair. destruct pair as [x_col y_col].
  intros H.
  apply bind_Return_inv in H as (o1 & x & o2 & _ & H & _).
  apply bind_Return_inv in H as (o3 & y & o4 & _ & H & _).
  destruct x as [[xv|xv]|]; [|injection H as _ <- _; reflexivity | discriminate].
  destruct y as [[yv|yv]|]; [|injection H as _ <- _; reflexivity | discriminate].
  apply bind_Return_inv in H as (? & h1 & ? & H1 & H & _).
  apply bind_Return_inv in H as (? & h2 & ? & H2 & H & _).
  apply bind_Return_inv in H as (? & h3 & ? & H3 & H & _).
  apply bind_Return_inv in H as (? & h4 & ? & H4 & H & _).
  injection H as _ <- _.
  apply set_line_dom in H1 as [E1 _]. apply set_line_dom in H2 as [E2 _].
  apply set_line_dom in H3 as [E3 _]. apply set_line_dom in H4 as [E4 _].
  congruence.
Qed.

(** X15. [plot_update] never adds or removes a line: when it returns, the
    [handles] have the labels they had before. *)
Theorem plot_update_keeps_labels (p : Plot) (data : option DataFrame)
    (col_pairs : list (string * string)) (configs : Configs)
    (out : list string) (p' : Plot) :
  plot_update p data col_pairs configs = (out, Return p') ->
  dom (handles p') = dom (handles p).
Proof.
  unfold plot_update. destruct data as [df|]; [|intros [= _ <-]; reflexivity].
  intros H.
  apply bind_Return_inv in H as (o1 & [h bb] & o2 & Hloop & H & _).
  apply bind_Return_inv in H as (o3 & ax' & o4 & _ & H & _).
  injection H as _ <-. cbn [handles].
  apply (foldM_invariant (fun st => dom st.1 = dom (handles p))
           (plot_update_pair df) ) with (s' := (h, bb)) in Hloop;
    [exact Hloop | | reflexivity].
  intros [h0 bb0] pair o [h1 bb1] Hs Hstep. cbn [fst] in *.
  rewrite <- Hs. eapply plot_update_pair_dom. exact Hstep.
Qed.

Lemma plot_update_keeps_labels_witness :
  plot_update plot_b (Some table_abc_indexed) [("_index", "b")] default_configs
    = ([], Return plot_b_updated)
  /\ dom (handles plot_b_updated) = dom (handles plot_b).
Proof.
  assert (H : plot_update plot_b (Some table_abc_indexed) [("_index", "b")]
                default_configs = ([], Return plot_b_updated))
    by (vm_compute; reflexivity).
  split; [exact H|].
  exact (plot_update_keeps_labels _ _ _ _ _ _ H).
Defined.

(** ** The limits, for any bounding box *)

Lemma plot_update_limits_blocks (m : Float) (bb : BBox) (ax : Axes) :
  plot_update_limits m bb ax =
    let dx := (x_max bb - x_min bb)%fl in
    let dy := (y_max bb - y_min bb)%fl in
    ax1 ← (if Fl.isfinite (y_min bb) && Fl.isfinite (y_max bb) then
             match nudge dx dy (y_min bb) (y_max bb) m (ylim ax) with
             | Some lim => set_ylim ax lim
             | None => ret ax
             end
           else ret ax);
    if Fl.isfinite (x_min bb) && Fl.isfinite (x_max bb) then
      match nudge dx dx (x_min bb) (x_max bb) m (xlim ax) with
      | Some lim => set_xlim ax1 lim
      | None => ret ax1
      end
    else ret ax1.
Proof.
  unfold plot_update_limits, nudge, get_xlim, get_ylim.
  destruct ax as [[xl xh] [yl yh]]. cbn [xlim ylim]. cbv zeta.
  destruct (Fl.isfinite (y_min bb) && Fl.isfinite (y_max bb));
    destruct (Fl.isfinite (x_min bb) && Fl.isfinite (x_max bb));
    try reflexivity.
  - destruct (_ || _); destruct (_ || _); reflexivity.
  - destruct (_ || _); reflexivity.
  - destruct (_ || _); reflexivity.
Qed.

(** [nudge] on finite limits and a finite range, whatever the divisor. *)
Lemma nudge_any_divisor (dx : Float) (dv vmin vmax m lo hi : Q) :
  nudge dx (Fin dv) (Fin vmin) (Fin vmax) (Fin m) (Fin lo, Fin hi) = None
  \/ exists lo' hi',
       nudge dx (Fin dv) (Fin vmin) (Fin vmax) (Fin m) (Fin lo, Fin hi)
         = Some (Fin lo', Fin hi')
       /\ (lo' - lo == (9 # 10) * (vmin - dv * m - lo))%Q
       /\ (hi' - hi == (9 # 10) * (vmax + dv * m - hi))%Q.
Proof.
  unfold nudge, Fl.sub, Fl.mul, Fl.add, Fl.fin, c0_9. cbv beta iota zeta.
  destruct (_ || _); [|left; reflexivity].
  right. eexists _, _. split; [reflexivity|].
  split; rewrite !Qred_correct; ring.
Qed.

Lemma isfinite_both (a b : Float) :
  Fl.isfinite a && Fl.isfinite b = true -> exists p q, a = Fin p /\ b = Fin q.
Proof. destruct a, b; try discriminate. eauto. Qed.

(** One axis of [plot_update_limits]: kept, or moved nine tenths of the way. *)
Lemma nudge_keeps_or_moves (dx vmin vmax : Float) (m lo hi : Q) :
  Fl.isfinite vmin && Fl.isfinite vmax = true ->
  nudge dx (vmax - vmin)%fl vmin vmax (Fin m) (Fin lo, Fin hi) = None
  \/ exists lim' p q,
       nudge dx (vmax - vmin)%fl vmin vmax (Fin m) (Fin lo, Fin hi) = Some lim'
       /\ vmin = Fin p /\ vmax = Fin q /\ moved_toward p q m lo hi lim'.
Proof.
  intros Hfin. destruct (isfinite_both _ _ Hfin) as (p & q & -> & ->).
  change (Fin q - Fin p)%fl with (Fin (Qred (q - p))).
  destruct (nudge_any_divisor dx (Qred (q - p)) p q m lo hi)
    as [-> | (lo' & hi' & -> & E1 & E2)]; [left; reflexivity|].
  right. exists (Fin lo', Fin hi'), p, q. repeat split.
  exists lo', hi'. split; [reflexivity|].
  rewrite Qred_correct in E1, E2. split; assumption.
Qed.


(** ** Updating the figure *)

(** A pass of the loop that reaches a result with [ret] at every pair. *)
Lemma foldM_returns {A S} (P : S -> Prop) (f : S -> A -> Py S) (l : list A) :
  (forall s x, P s -> x ∈ l -> exists s', f s x = ret s' /\ P s') ->
  forall s, P s -> exists s', foldM f s l = ret s' /\ P s'.
Proof.
  induction l as [|x l IH]; intros Hstep s Hs.
  - exists s. split; [reflexivity | exact Hs].
  - destruct (Hstep s x Hs) as (s1 & E1 & H1); [left|].
    destruct (IH (fun s x Hs Hx => Hstep s x Hs (list_elem_of_further _ _ _ Hx)) s1 H1)
      as (s2 & E2 & H2).
    exists s2. split; [|exact H2]. cbn [foldM]. rewrite E1, bind_ret. exact E2.
Qed.

Lemma initial_box_limits (m : Float) (ax : Axes) :
  plot_update_limits m (mkBBox PInf NInf PInf NInf) ax = ret ax.
Proof. rewrite plot_update_limits_blocks. reflexivity. Qed.

(** X14. A pass in which every pair has a text (object) column, as x or as
    y with a numeric x, changes nothing: no line is touched, the bounding
    box stays empty and the limits stay.  The same holds with no pairs. *)
Theorem plot_update_all_text (p : Plot) (df : DataFrame)
    (col_pairs : list (string * string)) (configs : Configs) :
  Forall (fun pair =>
            (exists xv sy, getitem df pair.1 = ret (Some (ObjSeries xv))
                           /\ getitem df pair.2 = ret sy)
            \/ (exists xv yv, getitem df pair.1 = ret (Some (NumSeries xv))
                              /\ getitem df pair.2 = ret (Some (ObjSeries yv))))
         col_pairs ->
  plot_update p (Some df) col_pairs configs = ret p.
Proof.
  intros Hall. unfold plot_update.
  destruct (foldM_returns
              (fun st => st = (handles p, mkBBox PInf NInf PInf NInf))
              (plot_update_pair df) col_pairs) with
    (s := (handles p, mkBBox PInf NInf PInf NInf)) as (st & -> & ->);
    [|reflexivity|].
  - intros st [x y] -> Hin. rewrite Forall_forall in Hall.
    exists (handles p, mkBBox PInf NInf PInf NInf). split; [|reflexivity].
    unfold plot_update_pair.
    destruct (Hall _ Hin) as [(xv & sy & Ex & Ey) | (xv & yv & Ex & Ey)];
      cbn [fst snd] in Ex, Ey; rewrite Ex, bind_ret, Ey, bind_ret; reflexivity.
  - rewrite bind_ret, initial_box_limits, bind_ret. destruct p. reflexivity.
Qed.

(** A table whose only data column is text. *)
Lemma plot_update_all_text_witness :
  plot_update plot_b
    (Some (mkDataFrame ["_index"; "b"] [0; 1]
             [NumSeries [Fin 0; Fin 1]; ObjSeries ["x"; "y"]]))
    [("_index", "b")] default_configs = ret plot_b.
Proof.
  apply plot_update_all_text. constructor; [|constructor].
  right. exists [Fin 0; Fin 1], ["x"; "y"]. split; reflexivity.
Defined.

Lemma set_line_missing (h : gmap string Line2D) (label : string)
    (upd : Line2D -> Line2D) :
  h !! label = None -> set_line h label upd = raise KeyError.
Proof. intros H. unfold set_line. rewrite H. reflexivity. Qed.

(** X16. A numeric pair whose label has no line in [handles] ends the
    update with a [KeyError]: the lines are those [plot_data] drew, and a
    pair resolved later that was not drawn then cannot be updated. *)
Theorem plot_update_unknown_label (p : Plot) (df : DataFrame)
    (x_col y_col : string) (rest : list (string * string)) (configs : Configs)
    (xv yv : list Float) :
  getitem df x_col = ret (Some (NumSeries xv)) ->
  getitem df y_col = ret (Some (NumSeries yv)) ->
  handles p !! get_label x_col y_col = None ->
  plot_update p (Some df) ((x_col, y_col) :: rest) configs = raise KeyError.
Proof.
  intros Ex Ey Hl. unfold plot_update. cbn [foldM]. unfold plot_update_pair.
  cbv zeta. rewrite Ex, bind_ret, Ey, bind_ret.
  rewrite (set_line_missing _ _ _ Hl). reflexivity.
Qed.

Lemma plot_update_unknown_label_witness :
  plot_update plot_b (Some table_abc_indexed) [("_index", "c")] default_configs
    = raise KeyError.
Proof.
  apply (plot_update_unknown_label plot_b table_abc_indexed "_index" "c" []
           default_configs [Fin 0; Fin 1] [Fin 5; Fin 6]); reflexivity.
Defined.




(** ** Rescaling when all x values coincide *)

Section ZeroSpan.
Local Open Scope Q_scope.

Lemma div_Fin_zero (p z : Q) :
  z == 0 -> 0 < p -> Fl.div (Fin p) (Fin z) = PInf.
Proof.
  intros Hz Hp. cbn. rewrite (proj2 (Qeq_bool_iff z 0) Hz).
  unfold Fl.scaled_inf. apply Qgt_alt in Hp. rewrite Hp. reflexivity.
Qed.

(** With a zero divisor and a lower limit below the value, the test is on:
    the quotient is +inf.  The limits move, and the lower limit stays
    below the value. *)
Lemma nudge_zero_span (z v m lo hi : Q) :
  z == 0 -> lo < v ->
  exists lo' hi',
    nudge (Fin z) (Fin z) (Fin v) (Fin v) (Fin m) (Fin lo, Fin hi)
      = Some (Fin lo', Fin hi')
    /\ v - lo' == (1 # 10) * (v - lo).
Proof.
  intros Hz Hlo.
  unfold nudge, Fl.sub, Fl.mul, Fl.add, Fl.fin, c0_9. cbv beta iota zeta.
  assert (Ev : Qred (v - Qred (z * m)) == v).
  { rewrite !Qred_correct, Hz. ring. }
  rewrite (div_Fin_zero (Qred (Qred (v - Qred (z * m)) - lo)) z Hz)
    by (rewrite Qred_correct, Ev; lra).
  cbn [Fl.gtb Fl.ltb c0_2 orb].
  eexists _, _. split; [reflexivity|].
  rewrite !Qred_correct, Hz. ring.
Qed.

Variables (m v : Q) (ymin ymax : Float).

Let bb : BBox := mkBBox (Fin v) (Fin v) ymin ymax.

(** Finite limits whose lower x limit is below the one x value. *)
Let Below (ax : Axes) : Prop :=
  exists lo hi ylo yhi,
    ax = mkAxes (Fin lo, Fin hi) (Fin ylo, Fin yhi) /\ lo < v.

Lemma zero_span_step (ax : Axes) :
  Below ax ->
  exists ax', plot_update_limits (Fin m) bb ax = ret ax' /\ Below ax' /\ ax' <> ax.
Proof.
  intros (lo & hi & ylo & yhi & -> & Hlo).
  rewrite plot_update_limits_blocks. subst bb. cbv zeta.
  cbn [x_min x_max y_min y_max xlim ylim Fl.isfinite andb].
  change (Fin v - Fin v)%fl with (Fin (Qred (v - v))).
  assert (Hz : Qred (v - v) == 0) by (rewrite Qred_correct; ring).
  destruct (nudge_zero_span (Qred (v - v)) v m lo hi Hz Hlo)
    as (lo' & hi' & -> & E).
  assert (Hlo' : lo' < v) by lra.
  assert (Hne : lo' <> lo) by (intros ->; lra).
  assert (Hy : exists ylo' yhi',
    (if Fl.isfinite ymin && Fl.isfinite ymax then
       match nudge (Fin (Qred (v - v))) (ymax - ymin)%fl ymin ymax (Fin m)
               (Fin ylo, Fin yhi) with
       | Some lim => set_ylim (mkAxes (Fin lo, Fin hi) (Fin ylo, Fin yhi)) lim
       | None => ret (mkAxes (Fin lo, Fin hi) (Fin ylo, Fin yhi))
       end
     else ret (mkAxes (Fin lo, Fin hi) (Fin ylo, Fin yhi)))
    = ret (mkAxes (Fin lo, Fin hi) (Fin ylo', Fin yhi'))).
  { destruct (Fl.isfinite ymin && Fl.isfinite ymax) eqn:Ef;
      [|eexists _, _; reflexivity].
    destruct (nudge_keeps_or_moves (Fin (Qred (v - v))) _ _ m ylo yhi Ef)
      as [-> | (lim' & _ & _ & -> & _ & _ & (a & b & -> & _))];
      eexists _, _; reflexivity. }
  destruct Hy as (ylo' & yhi' & ->). rewrite bind_ret.
  cbn [set_xlim fst snd Fl.isfinite andb ylim].
  eexists. split; [reflexivity|]. split.
  - exists lo', hi', ylo', yhi'. split; [reflexivity | exact Hlo'].
  - intros [= Heq _ _ _]. congruence.
Qed.

Lemma zero_span_cycles (n : nat) (ax : Axes) :
  Below ax ->
  exists ax', rescale_cycles n (Fin m) bb ax = ret ax' /\ Below ax'.
Proof.
  intros H. induction n as [|n (ax1 & Hrun & H1)].
  - exists ax. split; [reflexivity | exact H].
  - destruct (zero_span_step ax1 H1) as (ax2 & Hstep & H2 & _).
    exists ax2. split; [|exact H2].
    cbn [rescale_cycles]. rewrite Hrun, bind_ret. exact Hstep.
Qed.

Lemma zero_span_moves (n : nat) (ax : Axes) :
  Below ax ->
  rescale_cycles (S n) (Fin m) bb ax <> rescale_cycles n (Fin m) bb ax.
Proof.
  intros H. destruct (zero_span_cycles n ax H) as (ax1 & Hrun & H1).
  destruct (zero_span_step ax1 H1) as (ax2 & Hstep & _ & Hne).
  cbn [rescale_cycles]. rewrite Hrun, bind_ret, Hstep.
  intros Heq. apply Hne. injection Heq as ->. reflexivity.
Qed.

End ZeroSpan.

(** X19. When all x values coincide (a single row, or a constant x column)
    the x span is zero and the discrepancies are divided by zero.  With
    finite limits whose lower x limit lies below that value, the quotient
    is +inf, the test is on at every cycle, and every cycle moves the
    limits: in exact arithmetic the rescaling never comes to rest. *)
Theorem rescale_zero_span_never_rests (m v : Q) (ymin ymax : Float)
    (lo hi ylo yhi : Q) (n : nat) :
  (lo < v)%Q ->
  rescale_cycles (S n) (Fin m) (mkBBox (Fin v) (Fin v) ymin ymax)
      (mkAxes (Fin lo, Fin hi) (Fin ylo, Fin yhi))
  <> rescale_cycles n (Fin m) (mkBBox (Fin v) (Fin v) ymin ymax)
      (mkAxes (Fin lo, Fin hi) (Fin ylo, Fin yhi)).
Proof.
  intros Hlo. apply zero_span_moves. exists lo, hi, ylo, yhi.
  split; [reflexivity | exact Hlo].
Qed.

Lemma rescale_zero_span_never_rests_witness :
  rescale_cycles 3 (Fin (1 # 20)) (mkBBox (Fin 5) (Fin 5) (Fin 0) (Fin 1))
      (mkAxes (Fin 4, Fin 6) (Fin 0, Fin 1))
  <> rescale_cycles 2 (Fin (1 # 20)) (mkBBox (Fin 5) (Fin 5) (Fin 0) (Fin 1))
      (mkAxes (Fin 4, Fin 6) (Fin 0, Fin 1)).
Proof.
  apply (rescale_zero_span_never_rests (1 # 20) 5 (Fin 0) (Fin 1) 4 6 0 1 2).
  reflexivity.
Defined.

(** ** The first drawing *)

#[local] Set Warnings "-clear-no-such-hyp".

Lemma product_styles_palette_nonempty : product styles palette <> [].
Proof. discriminate. Qed.

Lemma plot_data_pair_dom (df : DataFrame) (h : gmap string Artist)
    (style : string * string) (pair : string * string) out (h' : gmap string Artist) :
  plot_data_pair df h (style, pair) = (out, Return h') ->
  dom h' = {[ get_label pair.1 pair.2 +:+ "_point" ]}
           ∪ ({[ get_label pair.1 pair.2 ]} ∪ dom h).
Proof.
  unfold plot_data_pair. destruct style as [ls c], pair as [x_col y_col].
  cbv zeta. intros H.
  apply bind_Return_inv in H as (o1 & vx & o2 & _ & H & _).
  apply bind_Return_inv in H as (o3 & vy & o4 & _ & H & _).
  apply bind_Return_inv in H as (o5 & vxa & o6 & _ & H & _).
  apply bind_Return_inv in H as (o7 & vxb & o8 & _ & H & _).
  apply bind_Return_inv in H as (o9 & vya & o10 & _ & H & _).
  apply bind_Return_inv in H as (o11 & vyb & o12 & _ & H & _).
  injection H as _ <-. cbn [fst snd]. rewrite !dom_insert_L. reflexivity.
Qed.

Lemma plot_data_loop_dom (df : DataFrame)
    (items : list ((string * string) * (string * string)))
    (h : gmap string Artist) out (h' : gmap string Artist) :
  foldM (plot_data_pair df) h items = (out, Return h') ->
  dom h' = dom h
           ∪ list_to_set ((fun p => get_label p.1 p.2) <$> items.*2)
           ∪ list_to_set ((fun p => get_label p.1 p.2 +:+ "_point") <$> items.*2).
Proof.
  revert h out. induction items as [|[style pair] items IH]; intros h out.
  - intros [= _ <-]. cbn. set_solver.
  - cbn [foldM]. intros H.
    apply bind_Return_inv in H as (o1 & h1 & o2 & H1 & H2 & _).
    apply plot_data_pair_dom in H1. apply IH in H2. rewrite H2, H1.
    cbn [fmap list_fmap snd list_to_set]. set_solver.
Qed.

(** X20. The [handles] that [plot_data] returns hold, for every pair, an
    entry under the pair's label and one under the label followed by
    "_point", and no other entry. *)
Theorem plot_data_labels (df : DataFrame) (col_pairs : list (string * string))
    (out : list string) (h : gmap string Artist) (t : Texts) :
  plot_data df col_pairs = (out, Return (h, t)) ->
  dom h = list_to_set ((fun p => get_label p.1 p.2) <$> col_pairs)
          ∪ list_to_set ((fun p => get_label p.1 p.2 +:+ "_point") <$> col_pairs).
Proof.
  unfold plot_data. intros H.
  apply bind_Return_inv in H as (o1 & h1 & o2 & Hloop & H & _).
  apply bind_Return_inv in H as (o3 & xs & o4 & _ & H & _).
  injection H as _ <- _.
  apply plot_data_loop_dom in Hloop. unfold zip_cycle in Hloop.
  rewrite (zip_cycle_from_snd _ _ _ product_styles_palette_nonempty) in Hloop.
  rewrite Hloop, dom_empty_L. set_solver.
Qed.

(** The handles drawn for [table_abc_indexed] with one series, b. *)
Lemma plot_data_labels_witness :
  exists h t,
    plot_data table_abc_indexed [("_index", "b")] = ([], Return (h, t))
    /\ dom h = {[ "b"; "b_point" ]}.
Proof.
  destruct (plot_data table_abc_indexed [("_index", "b")]) as [out [e|[h t]]] eqn:E.
  - vm_compute in E. discriminate.
  - assert (out = []) as -> by (vm_compute in E; congruence).
    exists h, t. split; [reflexivity|].
    rewrite (plot_data_labels _ _ _ _ _ E). cbn. set_solver.
Defined.

(** X21. Drawing a table without rows fails: the marker of the first pair
    takes the last value of its x column, and [values[-1]] of a column
    without values is an [IndexError]. *)
Theorem plot_data_no_rows (df : DataFrame) (x_col y_col : string)
    (rest : list (string * string)) (sx : Series) (sy : option Series) :
  getitem df x_col = ret (Some sx) ->
  getitem df y_col = ret sy ->
  series_len sx = 0%nat ->
  plot_data df ((x_col, y_col) :: rest) = raise IndexError.
Proof.
  intros Ex Ey Hlen. unfold plot_data.
  change (zip_cycle (product styles palette) ((x_col, y_col) :: rest))
    with ((("solid", "#2d8ff3"), (x_col, y_col))
            :: zip_cycle_from (product styles palette)
                 (List.tl (product styles palette)) rest).
  cbn [foldM].
  assert (Hpair : plot_data_pair df ∅ (("solid", "#2d8ff3"), (x_col, y_col))
                  = raise IndexError).
  { unfold plot_data_pair. cbv beta iota zeta.
    rewrite Ex, bind_ret, Ey, bind_ret, bind_ret.
    assert (Hlast : values_last df (Some sx) = raise IndexError)
      by (unfold values_last; rewrite Hlen; reflexivity).
    rewrite Hlast. reflexivity. }
  rewrite Hpair. reflexivity.
Qed.

Lemma plot_data_no_rows_witness :
  plot_data (mkDataFrame ["_index"; "b"] [] [NumSeries []; NumSeries []])
    [("_index", "b")] = raise IndexError.
Proof.
  apply (plot_data_no_rows _ "_index" "b" [] (NumSeries []) (Some (NumSeries [])));
    reflexivity.
Defined.

Lemma fromkeys_from_seen (seen l : list string) (s : string) :
  s ∈ seen -> Forall (fun x => x = s) l -> fromkeys_from seen l = [].
Proof.
  intros Hs. induction 1 as [|x l -> _ IH]; [reflexivity|].
  cbn [fromkeys_from]. rewrite bool_decide_eq_true_2 by exact Hs. exact IH.
Qed.

Lemma fromkeys_constant (l : list string) (s : string) :
  l <> [] -> Forall (fun x => x = s) l -> fromkeys l = [s].
Proof.
  intros Hne Hall. destruct Hall as [|x l -> Hall]; [done|].
  unfold fromkeys. cbn [fromkeys_from].
  rewrite bool_decide_eq_false_2 by apply not_elem_of_nil.
  f_equal. apply (fromkeys_from_seen _ _ s); [left | exact Hall].
Qed.

(** X22. When every pair is plotted against the row index, as it is
    without x-selectors, [plot_data] labels the x axis "Sample", once,
    however many series there are; the title and the y label are fixed. *)
Theorem plot_data_index_xlabel (df : DataFrame)
    (col_pairs : list (string * string)) (out : list string)
    (h : gmap string Artist) (t : Texts) :
  Forall (fun p => p.1 = "_index") col_pairs ->
  plot_data df col_pairs = (out, Return (h, t)) ->
  t = mkTexts "Log Visualizer" "Sample" "Value".
Proof.
  intros Hall. unfold plot_data. intros H.
  apply bind_Return_inv in H as (o1 & h1 & o2 & _ & H & _).
  destruct col_pairs as [|p ps]; [discriminate|].
  rewrite bind_ret in H. cbv zeta in H.
  rewrite (fromkeys_constant _ "Sample") in H.
  - injection H as _ _ <-. reflexivity.
  - discriminate.
  - apply Forall_fmap, Forall_fmap. eapply Forall_impl; [exact Hall|].
    intros [x y] Hx. cbn in *. rewrite Hx. reflexivity.
Qed.

Lemma plot_data_index_xlabel_witness :
  exists h,
    plot_data table_abc_indexed [("_index", "b"); ("_index", "c")]
      = ([], Return (h, mkTexts "Log Visualizer" "Sample" "Value")).
Proof.
  destruct (plot_data table_abc_indexed [("_index", "b"); ("_index", "c")])
    as [out [e|[h t]]] eqn:E.
  - vm_compute in E. discriminate.
  - assert (out = []) as -> by (vm_compute in E; congruence).
    exists h. f_equal. f_equal. f_equal.
    apply (plot_data_index_xlabel table_abc_indexed
             [("_index", "b"); ("_index", "c")] [] h t);
      [repeat constructor | exact E].
Defined.




(** ** The streaming loop *)

(** X28. The loop ends with the pass after which the window is found
    closed: whatever is observed after that pass has no effect on the
    figure, on the output or on the outcome. *)
Theorem run_streaming_stops_when_closed (configs : Configs)
    (before after : list (FileSystem * bool)) (fs : FileSystem) (p : Plot) :
  run_streaming configs (before ++ (fs, false) :: after) p
  = run_streaming configs (before ++ [(fs, false)]) p.
Proof.
  revert p. induction before as [|[fs0 open] before IH]; intros p.
  - cbn [app run_streaming].
    destruct (run_iteration fs configs p) as [out [e|p']]; reflexivity.
  - cbn [app run_streaming].
    destruct (run_iteration fs0 configs p) as [out [e|p']]; [reflexivity|].
    rewrite !bind_return. destruct open; [|reflexivity]. rewrite IH. reflexivity.
Qed.

(** ** The signal-source demo, continued *)

Lemma tick_prints_one_line (sample : Float * Float) (st : PicoDemo.State) :
  exists line st', PicoDemo.tick sample st = ([line], Return st')
    /\ line = PicoDemo.format_line sample.1 sample.2
                (PicoDemo.smooth sample.1 (PicoDemo.x_s st))
                (PicoDemo.smooth sample.2 (PicoDemo.y_s st))
    /\ st' = PicoDemo.mkState
               (Some (PicoDemo.smooth sample.1 (PicoDemo.x_s st)))
               (Some (PicoDemo.smooth sample.2 (PicoDemo.y_s st))).
Proof. destruct sample as [x y]. eexists _, _. repeat split. Qed.

Lemma ticks_print_lines (samples : list (Float * Float)) (st : PicoDemo.State) :
  exists lines st',
    foldM (fun st sample => PicoDemo.tick sample st) st samples
      = (lines, Return st')
    /\ length lines = length samples.
Proof.
  revert st. induction samples as [|sample samples IH]; intros st.
  - exists [], st. split; reflexivity.
  - destruct (tick_prints_one_line sample st) as (line & st1 & E1 & _ & _).
    destruct (IH st1) as (lines & st' & E2 & Hlen).
    exists (line :: lines), st'. cbn [foldM]. rewrite E1, bind_return, E2.
    split; [reflexivity | cbn; lia].
Qed.

(** X24. The demo never raises on its samples: it prints the header, once
    and first, and then exactly one line per sample; the first line shows
    the first sample twice, since it seeds the smoothed values. *)
Theorem demo_prints_header_then_lines (samples : list (Float * Float)) :
  exists lines st,
    PicoDemo.main samples = (PicoDemo.header :: lines, Return st)
    /\ length lines = length samples
    /\ forall x y rest, samples = (x, y) :: rest ->
         head lines = Some (PicoDemo.format_line x y x y).
Proof.
  unfold PicoDemo.main, print. rewrite bind_return. cbn [fst snd app].
  destruct samples as [|[x y] rest].
  - exists [], PicoDemo.initial. repeat split. intros x y rest [=].
  - cbn [foldM].
    destruct (tick_prints_one_line (x, y) PicoDemo.initial)
      as (line & st1 & E1 & -> & _).
    destruct (ticks_print_lines rest st1) as (lines & st' & E2 & Hlen).
    rewrite E1, bind_return, E2. cbn [fst snd app].
    eexists _, _. split; [reflexivity|]. split; [cbn; lia|].
    intros x' y' rest' [= <- <- <-]. reflexivity.
Qed.

Lemma repeat_char_length (c : ascii) (n : nat) :
  String.length (PicoDemo.repeat_char c n) = n.
Proof. induction n as [|n IH]; [reflexivity|]. cbn. f_equal. exact IH. Qed.

Lemma string_app_length (s1 s2 : string) :
  String.length (s1 +:+ s2) = (String.length s1 + String.length s2)%nat.
Proof.
  induction s1 as [|a s1 IH]; [reflexivity|].
  simpl. rewrite IH. reflexivity.
Qed.

Lemma pad_left_length (c : ascii) (width : nat) (s : string) :
  (width <= String.length (PicoDemo.pad_left c width s))%nat.
Proof.
  unfold PicoDemo.pad_left. rewrite string_app_length, repeat_char_length. lia.
Qed.

Lemma pad_left_wide (c : ascii) (width : nat) (s : string) :
  (width <= String.length s)%nat -> PicoDemo.pad_left c width s = s.
Proof.
  intros H. unfold PicoDemo.pad_left.
  replace (width - String.length s)%nat with 0%nat by lia. reflexivity.
Qed.

Lemma fixed_length (prec : nat) (q : Q) :
  (0 < prec)%nat -> (prec + 1 <= String.length (PicoDemo.fixed prec q))%nat.
Proof.
  intros Hp. unfold PicoDemo.fixed. destruct prec as [|k]; [lia|].
  cbv zeta. rewrite !string_app_length.
  pose proof (pad_left_length "0" (S k)
    (PicoDemo.decimal
       (PicoDemo.round_half_even (Qabs q * inject_Z (10 ^ Z.of_nat (S k)))
        mod 10 ^ Z.of_nat (S k)))) as Hpad.
  cbn [String.length]. lia.
Qed.

(** X25. The width in the first conversion ["%3f"] never pads: with six
    digits after the point a finite value takes at least seven characters,
    and "inf", "-inf" and "nan" take three or four, so ["%3f"] prints what
    ["%f"] prints. *)
Theorem format_width_3_is_plain (v : Float) :
  PicoDemo.format_f 3 PicoDemo.default_precision v
  = PicoDemo.format_f 0 PicoDemo.default_precision v.
Proof.
  unfold PicoDemo.format_f. destruct v as [q| | |]; try reflexivity.
  rewrite !pad_left_wide; [reflexivity | lia |].
  pose proof (fixed_length PicoDemo.default_precision q) as H.
  unfold PicoDemo.default_precision in *. lia.
Qed.

Section Smoothing.
Local Open Scope Q_scope.

Lemma smooth_step (c s : Q) :
  exists s', PicoDemo.smooth (Fin c) (Some (Fin s)) = Fin s'
             /\ s' - c == (9 # 10) * (s - c).
Proof.
  eexists. split; [reflexivity|]. rewrite !Qred_correct. lra.
Qed.

Lemma Qpower_nat_succ (a : Q) (n : nat) :
  a ^ Z.of_nat (S n) == a * a ^ Z.of_nat n.
Proof.
  rewrite Nat2Z.inj_succ. unfold Z.succ.
  rewrite Qpower_plus' by lia. rewrite Qpower_1_r. apply Qmult_comm.
Qed.

(** X26. Fed the same sample at every tick, the smoothed values close in
    on it geometrically: after n ticks each is off by (9/10)^n times what
    it was off by at the start (in exact arithmetic). *)
Theorem smoothing_approaches_constant (cx cy : Q) (n : nat) (sx sy : Q) :
  exists lines sx' sy',
    foldM (fun st sample => PicoDemo.tick sample st)
        (PicoDemo.mkState (Some (Fin sx)) (Some (Fin sy)))
        (replicate n (Fin cx, Fin cy))
      = (lines, Return (PicoDemo.mkState (Some (Fin sx')) (Some (Fin sy'))))
    /\ sx' - cx == (9 # 10) ^ Z.of_nat n * (sx - cx)
    /\ sy' - cy == (9 # 10) ^ Z.of_nat n * (sy - cy).
Proof.
  revert sx sy. induction n as [|n IH]; intros sx sy.
  - exists [], sx, sy. split; [reflexivity|].
    change ((9 # 10) ^ Z.of_nat 0) with 1. split; lra.
  - destruct (smooth_step cx sx) as (sx1 & Ex & Hx).
    destruct (smooth_step cy sy) as (sy1 & Ey & Hy).
    destruct (IH sx1 sy1) as (lines & sx' & sy' & Erun & Hx' & Hy').
    destruct (tick_prints_one_line (Fin cx, Fin cy)
                (PicoDemo.mkState (Some (Fin sx)) (Some (Fin sy))))
      as (line & st1 & E1 & _ & Est).
    cbn [fst snd PicoDemo.x_s PicoDemo.y_s] in Est. rewrite Ex, Ey in Est.
    subst st1. cbn [replicate foldM]. rewrite E1, bind_return, Erun.
    cbn [fst snd].
    eexists _, sx', sy'. split; [reflexivity|].
    rewrite Qpower_nat_succ, Hx', Hy', Hx, Hy. split; ring.
Qed.

End Smoothing.


(** ** The fields of a line *)

Lemma count_char_app (c : ascii) (s1 s2 : string) :
  count_char c (s1 +:+ s2) = (count_char c s1 + count_char c s2)%nat.
Proof.
  induction s1 as [|a s1 IH]; [reflexivity|].
  simpl. rewrite IH. lia.
Qed.

Lemma count_char_repeat (c a : ascii) (n : nat) :
  Ascii.eqb a c = false -> count_char c (PicoDemo.repeat_char a n) = 0%nat.
Proof.
  intros H. induction n as [|n IH]; [reflexivity|].
  cbn [PicoDemo.repeat_char count_char]. rewrite H, IH. reflexivity.
Qed.

Lemma count_comma_uint (d : Decimal.uint) :
  count_char "," (NilEmpty.string_of_uint d) = 0%nat.
Proof. induction d; cbn; assumption || reflexivity. Qed.

Lemma count_comma_decimal (n : Z) : count_char "," (PicoDemo.decimal n) = 0%nat.
Proof.
  unfold PicoDemo.decimal, NilZero.string_of_uint.
  destruct (N.to_uint (Z.to_N n)); try apply count_comma_uint. reflexivity.
Qed.

Lemma count_comma_pad (a : ascii) (width : nat) (s : string) :
  Ascii.eqb a "," = false ->
  count_char "," (PicoDemo.pad_left a width s) = count_char "," s.
Proof.
  intros H. unfold PicoDemo.pad_left.
  rewrite count_char_app, (count_char_repeat _ _ _ H). reflexivity.
Qed.

Lemma count_comma_fixed (prec : nat) (q : Q) :
  count_char "," (PicoDemo.fixed prec q) = 0%nat.
Proof.
  unfold PicoDemo.fixed. cbv zeta. rewrite !count_char_app, count_comma_decimal.
  assert (Hs : count_char "," match (q ?= 0)%Q with Lt => "-" | _ => "" end = 0%nat)
    by (destruct (q ?= 0)%Q; reflexivity).
  rewrite Hs. destruct prec as [|k]; [reflexivity|].
  rewrite count_char_app, count_comma_pad, count_comma_decimal by reflexivity.
  reflexivity.
Qed.

Lemma count_comma_format (width prec : nat) (v : Float) :
  count_char "," (PicoDemo.format_f width prec v) = 0%nat.
Proof.
  unfold PicoDemo.format_f. rewrite count_comma_pad by reflexivity.
  destruct v; [apply count_comma_fixed | reflexivity ..].
Qed.

(** X27. Every tick prints one line, and the line has exactly three
    commas: four fields, whatever the values are, infinities and nan
    included, so each line has as many fields as the header. *)
Theorem tick_line_has_four_fields (sample : Float * Float) (st : PicoDemo.State) :
  exists line st',
    PicoDemo.tick sample st = ([line], Return st')
    /\ count_char "," line = 3%nat
    /\ count_char "," PicoDemo.header = 3%nat.
Proof.
  destruct (tick_prints_one_line sample st) as (line & st' & E & -> & _).
  eexists _, st'. split; [exact E|]. split; [|reflexivity].
  unfold PicoDemo.format_line.
  rewrite !count_char_app, !count_comma_format. reflexivity.
Qed.
